(** * Drone Drops ground-control client (prueba.py): a shallow embedding

    The Streamlit script [prueba.py] talks to a field device over HTTP,
    starts and stops missions, and shows the telemetry of one local
    calendar day.  This development embeds the script's logic as Rocq
    functions and states the properties of the specification over them.

    Conventions.
    - A Python exception is a value of [exn]; code that may raise returns a
      [result].
    - Instants are integers counting nanoseconds since 1970-01-01T00:00:00Z,
      the resolution of a pandas [Timestamp].
    - The fields of a logged record carry the types of the device's log:
      whole epoch seconds, numbers, a boolean [fix_ok].
    - Coordinates, altitude and speed are rationals: the means of the daily
      view are computed exactly, the rounding of pandas' float summation is
      not represented.  A missing value (pandas NaN / None / NaT) is [None].
    - The mission form works on IEEE-754 binary64 numbers, Python's [float],
      through Rocq's primitive floats. *)

From Stdlib Require Import ZArith QArith Qpower Qfield List String Bool Lia.
From Stdlib Require Import Floats.
Import ListNotations.

#[local] Set Warnings "-inexact-float".

Local Open Scope string_scope.
Local Open Scope Z_scope.

(** ** Python exceptions and fallible computations *)

Inductive exn : Type :=
| ConnectionError                 (* requests: unreachable device or timeout *)
| HTTPError (status : Z)          (* Response.raise_for_status *)
| JSONDecodeError                 (* Response.json *)
| KeyError (key : string)         (* DataFrame column lookup *)
| OutOfBoundsDatetime             (* pd.to_datetime *)
| LocalizeError.                  (* tz_localize: ambiguous or non-existent wall time *)

Inductive result (A : Type) : Type :=
| Ok (a : A)
| Raise (e : exn).
Arguments Ok {A} a.
Arguments Raise {A} e.

Definition bind {A B : Type} (c : result A) (k : A -> result B) : result B :=
  match c with
  | Ok a => k a
  | Raise e => Raise e
  end.

Declare Scope py_scope.
Delimit Scope py_scope with py.
Notation "x <- c ;; k" := (bind c (fun x => k))
  (at level 61, c at next level, right associativity) : py_scope.
Local Open Scope py_scope.

Fixpoint mapM {A B : Type} (f : A -> result B) (l : list A) : result (list B) :=
  match l with
  | [] => Ok []
  | a :: l' => b <- f a ;; bs <- mapM f l' ;; Ok (b :: bs)
  end.

(** ** Time: epoch seconds, instants and the local calendar day *)

Module Time.

Definition NS_PER_S : Z := 1000000000.
Definition NS_PER_DAY : Z := 86400 * NS_PER_S.

(** [datetime.min.time()] is 00:00:00 and [datetime.max.time()] is
    23:59:59.999999, as nanoseconds after midnight. *)
Definition time_min : Z := 0.
Definition time_max : Z := 86399999999000.

(** [pd.Timestamp.combine(day, t)]: the naive wall-clock time of day [t] on
    the calendar day [day] (days since 1970-01-01), in nanoseconds. *)
Definition combine (day t : Z) : Z := day * NS_PER_DAY + t.

(** A time zone gives the UTC offset, in seconds east of Greenwich, that
    is in force at a naive wall-clock time; the lookup raises at a wall
    time that a change of offset skips or repeats. *)
Record tzinfo : Type := { utcoffset : Z -> result Z }.

(** [Timestamp.tz_localize]: the instant a wall-clock time denotes. *)
Definition tz_localize (tz : tzinfo) (wall : Z) : result Z :=
  off <- utcoffset tz wall ;; Ok (wall - off * NS_PER_S).

(** A zone with one UTC offset at all times. *)
Definition fixed_offset (offset_s : Z) : tzinfo :=
  {| utcoffset := fun _ => Ok offset_s |}.

(** The two offsets of America/Mexico_City.  The zone is at -21600 (CST) in
    winter and, since it gave up daylight saving time on 2022-10-30, all
    year; until then it was at -18000 (CDT) from the first Sunday of April
    to the last Sunday of October.  Neither constant is the zone: each
    stands for it on the days on which that offset is in force, which is
    where the examples below use them. *)
Definition Mexico_City_CST : tzinfo := fixed_offset (-21600).
Definition Mexico_City_CDT : tzinfo := fixed_offset (-18000).

(** The largest magnitude of epoch seconds whose nanosecond count fits the
    64-bit [Timestamp]. *)
Definition MAX_EPOCH_S : Z := 9223372036.

(** [pd.to_datetime(ts, unit="s", utc=True)] on one cell.  The later
    [tz_convert] changes the zone a timestamp is shown in, not its instant. *)
Definition to_datetime (cell : option Z) : result (option Z) :=
  match cell with
  | None => Ok None
  | Some t =>
      if Z.abs t <=? MAX_EPOCH_S then Ok (Some (t * NS_PER_S))
      else Raise OutOfBoundsDatetime
  end.

(** Lines 177-178. *)
Definition day_start (tz : tzinfo) (day : Z) : result Z :=
  tz_localize tz (combine day time_min).
Definition day_end (tz : tzinfo) (day : Z) : result Z :=
  tz_localize tz (combine day time_max).

(** One entry of [mask] (line 179); a comparison with NaT is false. *)
Definition in_window (start stop : Z) (dt : option Z) : bool :=
  match dt with
  | Some i => (start <=? i) && (i <=? stop)
  | None => false
  end.

End Time.

(** ** Telemetry records and data frames *)

Module Frame.

(** A field of a JSON record object: the key is missing, its value is
    [null], or it carries a value. *)
Inductive field (A : Type) : Type :=
| Absent
| Null
| Present (a : A).
Arguments Absent {A}.
Arguments Null {A}.
Arguments Present {A} a.

Definition has_key {A : Type} (f : field A) : bool :=
  match f with Absent => false | _ => true end.

Definition cell_of {A : Type} (f : field A) : option A :=
  match f with Present a => Some a | _ => None end.

(** One element of the array served by [/log.json]. *)
Record RawRecord : Type := {
  raw_ts : field Z;
  raw_lat : field Q;
  raw_lon : field Q;
  raw_alt : field Q;
  raw_drop_id : field Z;
  raw_speed_mps : field Q;
  raw_sats : field Z;
  raw_fix_ok : field bool
}.

(** One row of a frame; [dt] is the column added at line 176. *)
Record Row : Type := {
  ts : option Z;
  lat : option Q;
  lon : option Q;
  alt : option Q;
  drop_id : option Z;
  speed_mps : option Q;
  sats : option Z;
  fix_ok : option bool;
  dt : option Z
}.

Record DataFrame : Type := {
  columns : list string;
  rows : list Row
}.

Definition SCHEMA : list string :=
  ["ts"; "lat"; "lon"; "alt"; "drop_id"; "speed_mps"; "sats"; "fix_ok"].

Definition empty_frame (cols : list string) : DataFrame :=
  {| columns := cols; rows := [] |}.

Definition raw_has (c : string) (r : RawRecord) : bool :=
  if String.eqb c "ts" then has_key (raw_ts r)
  else if String.eqb c "lat" then has_key (raw_lat r)
  else if String.eqb c "lon" then has_key (raw_lon r)
  else if String.eqb c "alt" then has_key (raw_alt r)
  else if String.eqb c "drop_id" then has_key (raw_drop_id r)
  else if String.eqb c "speed_mps" then has_key (raw_speed_mps r)
  else if String.eqb c "sats" then has_key (raw_sats r)
  else if String.eqb c "fix_ok" then has_key (raw_fix_ok r)
  else false.

Definition row_of (r : RawRecord) : Row :=
  {| ts := cell_of (raw_ts r);
     lat := cell_of (raw_lat r);
     lon := cell_of (raw_lon r);
     alt := cell_of (raw_alt r);
     drop_id := cell_of (raw_drop_id r);
     speed_mps := cell_of (raw_speed_mps r);
     sats := cell_of (raw_sats r);
     fix_ok := cell_of (raw_fix_ok r);
     dt := None |}.

(** [pd.DataFrame(data)] for a list of record objects: one row per record,
    one column per key some record has. *)
Definition from_records (data : list RawRecord) : DataFrame :=
  {| columns := filter (fun c => existsb (raw_has c) data) SCHEMA;
     rows := map row_of data |}.

(** ["c" in df] *)
Definition has_column (c : string) (df : DataFrame) : bool :=
  existsb (String.eqb c) (columns df).

(** [len(df)] and [df.empty]: a frame is empty when either axis is. *)
Definition len (df : DataFrame) : Z := Z.of_nat (List.length (rows df)).

Definition empty (df : DataFrame) : bool :=
  match rows df, columns df with
  | [], _ => true
  | _, [] => true
  | _ :: _, _ :: _ => false
  end.

(** [df[c]] for a column of the schema: the cells, or [KeyError]. *)
Definition column {A : Type} (c : string) (get : Row -> option A)
           (df : DataFrame) : result (list (option A)) :=
  if has_column c df then Ok (map get (rows df)) else Raise (KeyError c).

Definition set_dt (r : Row) (d : option Z) : Row :=
  {| ts := ts r; lat := lat r; lon := lon r; alt := alt r;
     drop_id := drop_id r; speed_mps := speed_mps r; sats := sats r;
     fix_ok := fix_ok r; dt := d |}.

(** [df["dt"] = values]: the column is added, or replaced when present. *)
Definition assign_dt (df : DataFrame) (values : list (option Z)) : DataFrame :=
  {| columns := if has_column "dt" df then columns df else columns df ++ ["dt"];
     rows := map (fun rd => set_dt (fst rd) (snd rd)) (List.combine (rows df) values) |}.

(** [df.loc[mask].copy()] with the mask given row by row. *)
Definition loc (keep : Row -> bool) (df : DataFrame) : DataFrame :=
  {| columns := columns df; rows := filter keep (rows df) |}.

(** [Series.notna().any()], [Series.sum()] of a boolean column (missing
    cells are skipped) and [Series.mean()] (missing cells are skipped; the
    mean of no value is NaN).  The mean is the exact one: the code's is its
    binary64 rounding, which can differ from it in the last bits, so nothing
    below rests on the exact value of a mean beyond which cells enter it. *)
Definition present {A : Type} (cells : list (option A)) : list A :=
  flat_map (fun c => match c with Some a => [a] | None => [] end) cells.

Definition notna_any {A : Type} (cells : list (option A)) : bool :=
  match present cells with [] => false | _ :: _ => true end.

Definition sum_bool (cells : list (option bool)) : Z :=
  Z.of_nat (List.length (filter (fun b : bool => b) (present cells))).

Definition Qsum (xs : list Q) : Q := fold_right Qplus (0#1)%Q xs.

Definition mean (cells : list (option Q)) : option Q :=
  match present cells with
  | [] => None
  | xs => Some (Qsum xs / inject_Z (Z.of_nat (List.length xs)))%Q
  end.

End Frame.

(** ** The daily view (lines 164-222) *)

Module Daily.
Import Time Frame.

(** The columns of the frame substituted when the fetch fails (line 184). *)
Definition SCHEMA_DT : list string := SCHEMA ++ ["dt"].

(** Lines 176-180: the [dt] column, the bounds of the day and the rows the
    mask keeps. *)
Definition filter_day (tz : tzinfo) (day : Z) (df_all : DataFrame)
  : result DataFrame :=
  ts_col <- column "ts" ts df_all ;;
  dts <- mapM to_datetime ts_col ;;
  let df_all := assign_dt df_all dts in
  start <- day_start tz day ;;
  stop <- day_end tz day ;;
  Ok (loc (fun r => in_window start stop (dt r)) df_all).

(** Lines 174-182. *)
Definition select_day (tz : tzinfo) (day : Z) (df_all : DataFrame)
  : result DataFrame :=
  if negb (empty df_all) then filter_day tz day df_all else Ok df_all.

(** What the [try] block of lines 171-185 leaves behind: [df_day], the
    frame [df_all] when line 173 was reached (only its length is read
    afterwards), and the exception shown by [status.warning]. *)
Record DailyFrames : Type := {
  df_day : DataFrame;
  df_all : option DataFrame;
  warning : option exn
}.

(** Line 173. *)
Definition frame_of (data : list RawRecord) : DataFrame :=
  match data with
  | [] => empty_frame SCHEMA
  | _ :: _ => from_records data
  end.

(** Lines 171-185; [fetched] is the outcome of [fetch_json]. *)
Definition daily_view (tz : tzinfo) (day : Z)
           (fetched : result (list RawRecord)) : DailyFrames :=
  match fetched with
  | Raise e =>
      {| df_day := empty_frame SCHEMA_DT; df_all := None; warning := Some e |}
  | Ok data =>
      let all := frame_of data in
      match select_day tz day all with
      | Ok d => {| df_day := d; df_all := Some all; warning := None |}
      | Raise e =>
          {| df_day := empty_frame SCHEMA_DT; df_all := Some all;
             warning := Some e |}
      end
  end.

(** The four metrics of lines 188-196.  The average speed is either the
    dash or the mean of the column, which is NaN ([None]) when no row has
    a speed. *)
Inductive speed_metric : Type :=
| Dash
| Avg (m : option Q).

Record Metrics : Type := {
  rows_selected_day : Z;
  total_fetched_rows : Z;
  valid_gps_rows : Z;
  avg_speed : speed_metric
}.

Definition metrics (v : DailyFrames) : Metrics :=
  let d := df_day v in
  {| rows_selected_day := len d;
     total_fetched_rows :=
       match df_all v with Some a => len a | None => 0 end;
     valid_gps_rows :=
       if negb (empty d) && has_column "fix_ok" d
       then sum_bool (map fix_ok (rows d)) else 0;
     avg_speed :=
       if negb (empty d) && has_column "speed_mps" d
       then Avg (mean (map speed_mps (rows d))) else Dash |}.

(** [pdk.ViewState(latitude, longitude, zoom)]; a coordinate is a float, so
    it may be NaN ([None]). *)
Record ViewState : Type := {
  latitude : option Q;
  longitude : option Q;
  zoom : Z
}.

(** Lines 201-202: the mean of the column when some cell is present, else
    the literal [0.0]. *)
Definition center (cells : list (option Q)) : option Q :=
  if notna_any cells then mean cells else Some (0#1)%Q.

(** Lines 198-222: the map of the selected day, or the note that the day has
    no rows.  A frame without a [lat] or [lon] column raises. *)
Inductive panel : Type :=
| NoRows
| DayMap (view : ViewState).

Definition day_panel (d : DataFrame) : result panel :=
  if negb (empty d) then
    lats <- column "lat" lat d ;;
    let lat0 := center lats in
    lons <- column "lon" lon d ;;
    let lon0 := center lons in
    Ok (DayMap {| latitude := lat0; longitude := lon0; zoom := 15 |})
  else Ok NoRows.

(** Line 77, the map of the preview: the plain means. *)
Definition preview_view (df : DataFrame) : result ViewState :=
  lats <- column "lat" lat df ;;
  lons <- column "lon" lon df ;;
  Ok {| latitude := mean lats; longitude := mean lons; zoom := 15 |}.

(** *** Notions used to state the properties of the daily view *)

(** The instant of an epoch-second cell, and the row as line 176 stamps
    it. *)
Definition instant_of (cell : option Z) : option Z :=
  option_map (fun t => t * NS_PER_S) cell.

Definition stamped (r : Row) : Row := set_dt r (instant_of (ts r)).

(** The cells [pd.to_datetime] accepts. *)
Definition in_range (cell : option Z) : bool :=
  match cell with
  | Some t => Z.abs t <=? MAX_EPOCH_S
  | None => true
  end.

(** A day of the zone whose two midnights exist, whose UTC offset does not
    change within its last microsecond, and which lasts at least one
    second. *)
Definition regular_day (tz : tzinfo) (day : Z) : Prop :=
  exists o1 o2 : Z,
    utcoffset tz (Time.combine day time_min) = Ok o1 /\
    utcoffset tz (Time.combine day time_max) = Ok o2 /\
    utcoffset tz (Time.combine (day + 1) time_min) = Ok o2 /\
    o2 - o1 < 86400.

(** The frame [filter_day] returns between the instants [start] and [stop],
    spelled out. *)
Definition day_frame (start stop : Z) (df : DataFrame) : DataFrame :=
  {| columns := if has_column "dt" df then columns df else columns df ++ ["dt"];
     rows := filter (fun r => in_window start stop (dt r)) (map stamped (rows df)) |}.

Definition is_fix (r : Row) : bool :=
  match fix_ok r with Some true => true | _ => false end.

(** [a] is the mean of the values [xs], of which there is at least one. *)
Definition is_mean_of (xs : list Q) (a : Q) : Prop :=
  xs <> [] /\ (a * inject_Z (Z.of_nat (List.length xs)) == Qsum xs)%Q.

(** A frame is consistent on [fix_ok] when its rows carry no such cell unless
    it has the column. *)
Definition fix_consistent (df : DataFrame) : Prop :=
  has_column "fix_ok" df = false -> filter is_fix (rows df) = [].

End Daily.

(** ** Binary64 numbers

    Python's [float] is IEEE-754 binary64, which is what Rocq's primitive
    floats are; [Prim2SF] gives the sign, mantissa and exponent of one. *)

Module Binary64.

(** The rational number a finite binary64 number denotes. *)
Definition SF2Q (x : spec_float) : Q :=
  match x with
  | S754_finite s m e =>
      ((if s then - (1) else 1) * inject_Z (Zpos m) * (2 # 1) ^ e)%Q
  | _ => 0%Q
  end.

Definition value (f : float) : Q := SF2Q (Prim2SF f).

(** The unit roundoff of binary64, [2 ^ -53]. *)
Definition EPS : Q := 1 # 9007199254740992.

(** The last step of rounding, on a mantissa of 53 bits or on [2 ^ 53], which
    is brought back to 53 bits. *)
Definition normalized (m e : Z) : spec_float :=
  if m =? 2 ^ 53 then S754_finite false (Z.to_pos (2 ^ 52)) (e + 1)
  else S754_finite false (Z.to_pos m) e.

End Binary64.

(** ** The device and the HTTP helpers (lines 9-44) *)

Module Http.

Inductive method : Type := GET | POST | DELETE.

(** The JSON body of [POST /start] (line 36). *)
Record StartBody : Type := {
  interval_s : float;
  delay_s : float;
  step_hz : Z
}.

(** A call of [requests.get], [requests.post] or [requests.delete]. *)
Record Request : Type := {
  meth : method;
  url : string;
  last : option Z;            (* params={"last": N} *)
  data : option StartBody;    (* data=json.dumps(body) *)
  timeout : Z
}.

(** What came back: the status code, and the body read as JSON when it
    parses. *)
Record Response (Json : Type) : Type := {
  status_code : Z;
  json : option Json
}.
Arguments status_code {Json} r.
Arguments json {Json} r.

End Http.

Module Client.
Import Http Frame.

Section WithDevice.

(** The device is a collaborator: it has some state, and answers a request
    with a response, or the transport raises.  [as_records] reads the
    array served by [/log.json]. *)
Variable Json : Type.
Variable St : Type.
Variable device : St -> Request -> result (Response Json) * St.
Variable base : string.

(** The state a handler runs in: the device, and the requests sent so
    far.  The script keeps nothing else between two calls. *)
Record World : Type := { dev : St; sent : list Request }.

Definition M (A : Type) : Type := World -> result A * World.

Definition ret {A : Type} (a : A) : M A := fun w => (Ok a, w).
Definition raise {A : Type} (e : exn) : M A := fun w => (Raise e, w).
Definition bindM {A B : Type} (c : M A) (k : A -> M B) : M B :=
  fun w =>
    match c w with
    | (Ok a, w') => k a w'
    | (Raise e, w') => (Raise e, w')
    end.

(** [try: ... except Exception as e: ...] *)
Definition try_ {A : Type} (c : M A) : M (result A) :=
  fun w => let (r, w') := c w in (Ok r, w').

Notation "x <~ c ;; k" := (bindM c (fun x => k))
  (at level 61, c at next level, right associativity).

Definition send (rq : Request) : M (Response Json) :=
  fun w =>
    let (r, s') := device (dev w) rq in
    (r, {| dev := s'; sent := sent w ++ [rq] |}).

(** [Response.raise_for_status]: client and server error codes raise. *)
Definition raise_for_status (r : Response Json) : M unit :=
  if (400 <=? status_code r) && (status_code r <? 600)
  then raise (HTTPError (status_code r)) else ret tt.

(** [Response.json] *)
Definition json_of (r : Response Json) : M Json :=
  match json r with
  | Some j => ret j
  | None => raise JSONDecodeError
  end.

Definition request (m : method) (path : string) (n : option Z)
           (b : option StartBody) (t : Z) : M Json :=
  r <~ send {| meth := m; url := base ++ path; last := n; data := b;
               timeout := t |} ;;
  _ <~ raise_for_status r ;;
  json_of r.

Definition fetch_info : M Json := request GET "/info" None None 8.
Definition fetch_state : M Json := request GET "/state" None None 5.
Definition fetch_json (n : Z) : M Json :=
  request GET "/log.json" (Some n) None 10.

Definition start_mission (interval delay : float) (hz : Z) : M Json :=
  request POST "/start" None
          (Some {| interval_s := interval; delay_s := delay; step_hz := hz |})
          10.

Definition stop_mission : M Json := request POST "/stop" None None 5.

(** *** The stop button (lines 146-151) *)

Inductive stop_message : Type :=
| Stopped (resp : Json)        (* st.success *)
| StopFailed (e : exn).        (* st.error *)

Definition stop_button : M stop_message :=
  r <~ try_ stop_mission ;;
  match r with
  | Ok resp => ret (Stopped resp)
  | Raise e => ret (StopFailed e)
  end.

(** *** The start form (lines 127-142) *)

(** [st.number_input(min_value, max_value, value)]: the widget always hands
    the script a number of its range.  An entry within the range is handed
    over; an entry outside of it is not taken over, and the widget hands
    over the value it holds, [value].  The script is not told. *)
Definition number_input (min_value max_value value entry : float) : float :=
  if ((min_value <=? entry) && (entry <=? max_value))%float
  then entry else value.

Definition number_input_int (min_value max_value value entry : Z) : Z :=
  if (min_value <=? entry) && (entry <=? max_value)
  then entry else value.

(** What the user entered in the four widgets, and whether the form was
    submitted. *)
Record Entries : Type := {
  velocity : float;
  distance : float;
  arm_delay : float;
  stepper_hz : Z;
  start_now : bool            (* the form was submitted *)
}.

(** Lines 128-131: the values of the script's variables [velocity],
    [distance], [delay_s] and [step_hz]. *)
Definition handed_over (e : Entries) : Entries :=
  {| velocity := number_input 0.1 100.0 10.0 (velocity e);
     distance := number_input 0.1 1000.0 30.0 (distance e);
     arm_delay := number_input 0.0 120.0 10.0 (arm_delay e);
     stepper_hz := number_input_int 1 50000 200 (stepper_hz e);
     start_now := start_now e |}.

(** Line 133. *)
Definition computed_interval (distance velocity : float) : float :=
  (distance / velocity)%float.

Inductive start_message : Type :=
| Computed (interval : float)              (* st.info, nothing submitted *)
| Started (interval : float) (resp : Json) (* st.success *)
| StartFailed (interval : float) (e : exn). (* st.error *)

Definition start_form (e : Entries) : M start_message :=
  let velocity := number_input 0.1 100.0 10.0 (velocity e) in
  let distance := number_input 0.1 1000.0 30.0 (distance e) in
  let delay_s := number_input 0.0 120.0 10.0 (arm_delay e) in
  let step_hz := number_input_int 1 50000 200 (stepper_hz e) in
  let i := computed_interval distance velocity in
  if start_now e then
    r <~ try_ (start_mission i delay_s step_hz) ;;
    match r with
    | Ok resp => ret (Started i resp)
    | Raise ex => ret (StartFailed i ex)
    end
  else ret (Computed i).

(** The bounds the specification gives for the four inputs of a mission. *)
Definition within_bounds (e : Entries) : bool :=
  ((0 <? velocity e) && (velocity e <=? 100) &&
   (0 <? distance e) && (distance e <=? 1000) &&
   (0 <=? arm_delay e) && (arm_delay e <=? 120))%float &&
  ((1 <=? stepper_hz e) && (stepper_hz e <=? 50000)).

(** The request a submitted form sends: it is built from the values the
    widgets hand over. *)
Definition start_request (e : Entries) : Request :=
  {| meth := POST; url := base ++ "/start"; last := None;
     data := Some {| interval_s :=
                       computed_interval (distance (handed_over e))
                                         (velocity (handed_over e));
                     delay_s := arm_delay (handed_over e);
                     step_hz := stepper_hz (handed_over e) |};
     timeout := 10 |}.

(** The request of [stop_mission], and what a helper makes of the device's
    answer: the exception of the transport, of the status or of the body, or
    the JSON. *)
Definition stop_request : Request :=
  {| meth := POST; url := base ++ "/stop"; last := None; data := None;
     timeout := 5 |}.

Definition status_ok (r : Response Json) : bool :=
  negb ((400 <=? status_code r) && (status_code r <? 600)).

Definition answer (r : result (Response Json)) : result Json :=
  match r with
  | Raise e => Raise e
  | Ok resp =>
      if status_ok resp then
        match json resp with
        | Some j => Ok j
        | None => Raise JSONDecodeError
        end
      else Raise (HTTPError (status_code resp))
  end.

(** The interval the form shows (line 134). *)
Definition form_interval (e : Entries) : float :=
  computed_interval (distance (handed_over e)) (velocity (handed_over e)).

(** *** The daily view over the device (lines 171-185) *)

Variable as_records : Json -> list RawRecord.

Definition daily (tz : Time.tzinfo) (day previewN : Z) : M Daily.DailyFrames :=
  r <~ try_ (fetch_json (Z.max previewN 400)) ;;
  ret (Daily.daily_view tz day
         match r with
         | Ok j => Ok (as_records j)
         | Raise e => Raise e
         end).

End WithDevice.

End Client.

(** ** Sample data

    One day of the device's log in Mexico City: 2024-10-04 is day 20000 after
    1970-01-01, and its local midnight is the instant 1728021600. *)

Module Samples.
Import Frame.

Definition record_at (t : Z) (fixed : bool) : RawRecord :=
  {| raw_ts := Present t;
     raw_lat := Present (194326 # 10000)%Q;
     raw_lon := Present (-991332 # 10000)%Q;
     raw_alt := Present (2240 # 1)%Q;
     raw_drop_id := Present 1;
     raw_speed_mps := Present (10 # 1)%Q;
     raw_sats := Present 9;
     raw_fix_ok := Present fixed |}.


(** A record the device logged without the [ts] key. *)
Definition record_without_timestamp : RawRecord :=
  {| raw_ts := Absent;
     raw_lat := Present (194326 # 10000)%Q;
     raw_lon := Present (-991332 # 10000)%Q;
     raw_alt := Absent;
     raw_drop_id := Present 3;
     raw_speed_mps := Absent;
     raw_sats := Present 7;
     raw_fix_ok := Present true |}.

(** A record with a timestamp and without the keys of a position. *)
Definition record_without_lat_key (t : Z) : RawRecord :=
  {| raw_ts := Present t;
     raw_lat := Absent;
     raw_lon := Absent;
     raw_alt := Absent;
     raw_drop_id := Present 4;
     raw_speed_mps := Null;
     raw_sats := Present 0;
     raw_fix_ok := Present false |}.

Definition DAY : Z := 20000.
Definition MIDNIGHT : Z := 1728021600.

Definition at_midnight : RawRecord := record_at MIDNIGHT true.
Definition before_midnight : RawRecord := record_at (MIDNIGHT - 1) false.

Definition log : DataFrame := from_records [before_midnight; at_midnight].

(** A device that acknowledges every request, and one that is out of
    reach. *)
Definition acknowledging (s : unit) (rq : Http.Request)
  : result (Http.Response string) * unit :=
  (Ok {| Http.status_code := 200; Http.json := Some "ok" |}, s).

Definition unreachable (s : unit) (rq : Http.Request)
  : result (Http.Response string) * unit :=
  (Raise ConnectionError, s).

(** A device that answers 200 with a body that is not JSON, and one that
    answers every request with the status 500. *)
Definition acknowledging_plainly (s : unit) (rq : Http.Request)
  : result (Http.Response string) * unit :=
  (Ok {| Http.status_code := 200; Http.json := None |}, s).

Definition failing (s : unit) (rq : Http.Request)
  : result (Http.Response string) * unit :=
  (Ok {| Http.status_code := 500; Http.json := Some "error" |}, s).

End Samples.

(** ** The other handlers and a run of the page (lines 57-118, 153-160, 224-228) *)

Module Pages.
Import Http Client Frame Daily.

Section WithDevice.

(** Beside the device, the handlers read three things this development
    leaves open: the members of the JSON object of [/info] ([lookup]), the
    records of the array of [/log.json] ([as_records]) and the raw body of a
    response ([content]). *)
Variable Json : Type.
Variable St : Type.
Variable device : St -> Request -> result (Response Json) * St.
Variable base : string.
Variable as_records : Json -> list RawRecord.
Variable lookup : Json -> string -> option Json.
Variable Bytes : Type.
Variable content : Response Json -> Bytes.

Notation "x <~ c ;; k" := (bindM St c (fun x => k))
  (at level 61, c at next level, right associativity).

(** Lines 30-33. *)
Definition fetch_csv_bytes : M St Bytes :=
  r <~ send Json St device
            {| meth := GET; url := base ++ "/log.csv"; last := None;
               data := None; timeout := 30 |} ;;
  _ <~ raise_for_status Json St r ;;
  ret St (content r).

(** [info[key]] *)
Definition subscript (info : Json) (key : string) : result Json :=
  match lookup info key with
  | Some v => Ok v
  | None => Raise (KeyError key)
  end.

(** What the placeholder [status] of line 12 shows; each write replaces the
    one before. *)
Inductive status_text : Type :=
| Connected (records bytes fw : Json) (state : option Json)   (* line 62 *)
| ConnectionFailed (e : exn)                                  (* line 92 *)
| DownloadFailed (e : exn)                                    (* line 109 *)
| ClearFailed (e : exn)                                       (* line 118 *)
| FetchWarning (e : exn).                                     (* line 185 *)

(** The elements the preview puts on the page, in order.  A table is the
    frame handed to [sort_values] with the column it is sorted by. *)
Inductive element : Type :=
| Subheader (text : string)
| Table (df : DataFrame) (sorted_by : string)
| Chart (view : ViewState) (df : DataFrame)
| Note (text : string).

(** Lines 62-65: the members are read in the order of the message. *)
Definition connected (info : Json) : result status_text :=
  records <- subscript info "records" ;;
  bytes <- subscript info "bytes" ;;
  fw <- subscript info "fw" ;;
  Ok (Connected records bytes fw (lookup info "state")).

(** Lines 68-70. *)
Definition preview_frame (data : list RawRecord) : result DataFrame :=
  let df := from_records data in
  ts_col <- column "ts" ts df ;;
  dts <- mapM Time.to_datetime ts_col ;;
  Ok (assign_dt df dts).

(** Lines 67-90: the elements shown, and the exception that interrupted
    them, if any. *)
Definition preview (data : list RawRecord) : list element * option exn :=
  match data with
  | [] => ([Note "No data yet."], None)
  | _ :: _ =>
      match preview_frame data with
      | Raise e => ([], Some e)
      | Ok df =>
          let shown := [Subheader "Preview (last 200)"; Table df "ts";
                        Subheader "Map"] in
          match preview_view df with
          | Raise e => (shown, Some e)
          | Ok view => ((shown ++ [Chart view df])%list, None)
          end
      end
  end.

(** A fallible step inside a handler. *)
Definition lift {A : Type} (r : result A) : M St A := fun w => (r, w).

(** Lines 59-92, the button "Connect & Preview": the status it leaves and the
    elements it shows. *)
Definition connect_preview : M St (status_text * list element) :=
  r <~ try_ St
         (info <~ fetch_info Json St device base ;;
          msg <~ lift (connected info) ;;
          j <~ fetch_json Json St device base 200 ;;
          ret St (msg, preview (as_records j))) ;;
  match r with
  | Ok (msg, (shown, None)) => ret St (msg, shown)
  | Ok (_, (shown, Some e)) => ret St (ConnectionFailed e, shown)
  | Raise e => ret St (ConnectionFailed e, [])
  end.

(** Lines 96-109, the button "Download CSV".  [now] is the time of the click
    as [strftime] prints it. *)
Inductive download_message : Type :=
| CsvReady (file_name : string) (bytes : Bytes)
| NoCsv (e : exn).

Definition download_csv (now : string) : M St download_message :=
  r <~ try_ St fetch_csv_bytes ;;
  match r with
  | Ok csv_bytes => ret St (CsvReady ("drops-" ++ now ++ ".csv") csv_bytes)
  | Raise e => ret St (NoCsv e)
  end.

(** Lines 112-118, the button "Clear Log": the body of the answer is not
    read. *)
Inductive clear_message : Type :=
| Cleared
| NotCleared (e : exn).

Definition clear_log : M St clear_message :=
  r <~ try_ St
         (resp <~ send Json St device
                       {| meth := DELETE; url := base ++ "/log"; last := None;
                          data := None; timeout := 5 |} ;;
          raise_for_status Json St resp) ;;
  match r with
  | Ok _ => ret St Cleared
  | Raise e => ret St (NotCleared e)
  end.

(** Lines 155-160, the button "Refresh state". *)
Inductive state_message : Type :=
| StateShown (s : Json)
| StateFailed (e : exn).

Definition refresh_state : M St state_message :=
  r <~ try_ St (fetch_state Json St device base) ;;
  match r with
  | Ok s => ret St (StateShown s)
  | Raise e => ret St (StateFailed e)
  end.

(** *** The requests of the handlers *)

Definition info_request : Request :=
  {| meth := GET; url := base ++ "/info"; last := None; data := None;
     timeout := 8 |}.

Definition state_request : Request :=
  {| meth := GET; url := base ++ "/state"; last := None; data := None;
     timeout := 5 |}.

Definition log_request (n : Z) : Request :=
  {| meth := GET; url := base ++ "/log.json"; last := Some n; data := None;
     timeout := 10 |}.

Definition csv_request : Request :=
  {| meth := GET; url := base ++ "/log.csv"; last := None; data := None;
     timeout := 30 |}.

Definition clear_request : Request :=
  {| meth := DELETE; url := base ++ "/log"; last := None; data := None;
     timeout := 5 |}.

(** A request that goes to the configured address and carries one of the
    timeouts of the script. *)
Definition addressed (rq : Request) : Prop :=
  String.prefix base (url rq) = true /\ In (timeout rq) [5; 8; 10; 30].

(** A handler that never raises and adds at most [k] requests, all of them
    addressed, to those sent. *)
Definition appends {A : Type} (c : M St A) (k : nat) : Prop :=
  forall w : World St,
    exists (a : A) (w' : World St) (new : list Request),
      c w = (Ok a, w') /\
      sent St w' = (sent St w ++ new)%list /\
      (List.length new <= k)%nat /\
      Forall addressed new.

(** *** One run of the script *)

(** The widgets of one run: which button was pressed, the entries of the
    start form, the day and the slider of the daily view, and the check box
    and interval of the auto refresh. *)
Record Inputs : Type := {
  connect_pressed : bool;
  download_pressed : bool;
  clear_pressed : bool;
  entries : Entries;
  stop_pressed : bool;
  refresh_pressed : bool;
  day : Z;
  previewN : Z;
  auto_refresh : bool;
  refresh_every : Z
}.

(** What a run leaves on the page.  [day_map] is the outcome of lines
    198-222, whose exception nothing catches; [rerun] is the pause after
    which line 228 starts the next run, when it is reached. *)
Record Page : Type := {
  status : option status_text;
  preview_shown : list element;
  download_shown : option download_message;
  clear_shown : option clear_message;
  start_shown : start_message Json;
  stop_shown : option (stop_message Json);
  state_shown : option state_message;
  frames : DailyFrames;
  numbers : Metrics;
  day_map : result panel;
  rerun : option Z
}.

(** The last write to the placeholder wins. *)
Definition overwrite (old new : option status_text) : option status_text :=
  match new with
  | Some _ => new
  | None => old
  end.

(** [if st.button(...): handler] *)
Definition when {A : Type} (pressed : bool) (handler : M St A) : M St (option A) :=
  if pressed then (a <~ handler ;; ret St (Some a)) else ret St None.

Definition run (tz : Time.tzinfo) (now : string) (i : Inputs) : M St Page :=
  c <~ when (connect_pressed i) connect_preview ;;
  dl <~ when (download_pressed i) (download_csv now) ;;
  cl <~ when (clear_pressed i) clear_log ;;
  started <~ start_form Json St device base (entries i) ;;
  stopped <~ when (stop_pressed i) (stop_button Json St device base) ;;
  st <~ when (refresh_pressed i) refresh_state ;;
  v <~ daily Json St device base as_records tz (day i) (previewN i) ;;
  let s1 := option_map fst c in
  let s2 := match dl with Some (NoCsv e) => Some (DownloadFailed e) | _ => None end in
  let s3 := match cl with Some (NotCleared e) => Some (ClearFailed e) | _ => None end in
  let s4 := option_map FetchWarning (warning v) in
  let dm := day_panel (df_day v) in
  ret St
    {| status := overwrite (overwrite (overwrite s1 s2) s3) s4;
       preview_shown := match c with Some (_, shown) => shown | None => [] end;
       download_shown := dl;
       clear_shown := cl;
       start_shown := started;
       stop_shown := stopped;
       state_shown := st;
       frames := v;
       numbers := metrics v;
       day_map := dm;
       rerun := match dm with
                | Ok _ => if auto_refresh i then Some (refresh_every i) else None
                | Raise _ => None
                end |}.

End WithDevice.

(** A run in which every button is pressed and the form is submitted with
    its default entries. *)
Definition all_pressed : Inputs :=
  {| connect_pressed := true;
     download_pressed := true;
     clear_pressed := true;
     entries := {| velocity := 10; distance := 30; arm_delay := 10;
                   stepper_hz := 200; start_now := true |};
     stop_pressed := true;
     refresh_pressed := true;
     day := 20000;
     previewN := 400;
     auto_refresh := true;
     refresh_every := 3 |}.

End Pages.

(** * Properties *)

(** ** Generic facts about fallible maps and filters *)

Lemma filter_idem {A : Type} (f : A -> bool) (l : list A) :
  filter f (filter f l) = filter f l.
Proof.
  induction l as [|a l IH]; simpl; [reflexivity|].
  destruct (f a) eqn:E; simpl; [rewrite E, IH|]; auto.
Qed.

Lemma combine_map_self {A B : Type} (g : A -> B) (l : list A) :
  List.combine l (map g l) = map (fun a => (a, g a)) l.
Proof. induction l; simpl; congruence. Qed.

Module DailyFacts.
Import Time Frame Daily.

Lemma to_datetime_ok (c : option Z) :
  to_datetime c = if in_range c then Ok (instant_of c) else Raise OutOfBoundsDatetime.
Proof. destruct c as [t|]; simpl; [destruct (Z.abs t <=? MAX_EPOCH_S)|]; reflexivity. Qed.

Lemma mapM_to_datetime (cells : list (option Z)) :
  mapM to_datetime cells =
    if forallb in_range cells then Ok (map instant_of cells)
    else Raise OutOfBoundsDatetime.
Proof.
  induction cells as [|c cells IH]; simpl; [reflexivity|].
  rewrite to_datetime_ok, IH.
  destruct (in_range c); simpl; [destruct (forallb in_range cells)|]; reflexivity.
Qed.

Lemma stamp_rows (l : list Row) :
  map (fun rd => set_dt (fst rd) (snd rd))
      (List.combine l (map instant_of (map ts l))) = map stamped l.
Proof.
  rewrite map_map, combine_map_self, map_map. reflexivity.
Qed.

Lemma set_dt_same (r : Row) : set_dt r (dt r) = r.
Proof. destruct r; reflexivity. Qed.

Lemma stamped_ts (r : Row) : ts (stamped r) = ts r.
Proof. reflexivity. Qed.

Lemma stamped_dt (r : Row) : dt (stamped r) = instant_of (ts r).
Proof. reflexivity. Qed.

Lemma stamped_idem (r : Row) : stamped (stamped r) = stamped r.
Proof. destruct r; reflexivity. Qed.

Lemma filter_day_unfold (tz : tzinfo) (day : Z) (df : DataFrame) :
  filter_day tz day df =
    if has_column "ts" df then
      if forallb in_range (map ts (rows df)) then
        start <- day_start tz day ;;
        stop <- day_end tz day ;;
        Ok (day_frame start stop df)
      else Raise OutOfBoundsDatetime
    else Raise (KeyError "ts").
Proof.
  unfold filter_day, column.
  destruct (has_column "ts" df); simpl; [|reflexivity].
  rewrite mapM_to_datetime.
  destruct (forallb in_range (map ts (rows df))); simpl; [|reflexivity].
  unfold assign_dt, loc, day_frame; simpl. rewrite stamp_rows. reflexivity.
Qed.

Lemma filter_day_inv (tz : tzinfo) (day : Z) (df d : DataFrame) :
  filter_day tz day df = Ok d ->
  exists start stop,
    has_column "ts" df = true /\
    forallb in_range (map ts (rows df)) = true /\
    day_start tz day = Ok start /\ day_end tz day = Ok stop /\
    d = day_frame start stop df.
Proof.
  rewrite filter_day_unfold.
  destruct (has_column "ts" df); [|discriminate].
  destruct (forallb in_range (map ts (rows df))); [|discriminate].
  destruct (day_start tz day) as [start|]; simpl; [|discriminate].
  destruct (day_end tz day) as [stop|]; simpl; [|discriminate].
  intros [= <-]. exists start, stop. auto.
Qed.

Lemma columns_day_frame (start stop : Z) (df : DataFrame) :
  columns (day_frame start stop df) =
    if has_column "dt" df then columns df else (columns df ++ ["dt"])%list.
Proof. reflexivity. Qed.

Lemma rows_day_frame (start stop : Z) (df : DataFrame) :
  rows (day_frame start stop df) =
    filter (fun r => in_window start stop (dt r)) (map stamped (rows df)).
Proof. reflexivity. Qed.

Lemma has_column_day_frame (c : string) (start stop : Z) (df : DataFrame) :
  has_column c df = true -> has_column c (day_frame start stop df) = true.
Proof.
  intros H. unfold has_column at 1. rewrite columns_day_frame.
  destruct (has_column "dt" df); [exact H|].
  unfold has_column in H. rewrite existsb_app, H. reflexivity.
Qed.

Lemma has_dt_day_frame (start stop : Z) (df : DataFrame) :
  has_column "dt" (day_frame start stop df) = true.
Proof.
  unfold has_column at 1. rewrite columns_day_frame.
  destruct (has_column "dt" df) eqn:E; [exact E|].
  rewrite existsb_app. apply orb_true_iff. right. reflexivity.
Qed.

Lemma in_day_frame (start stop : Z) (df : DataFrame) (r : Row) :
  In r (rows (day_frame start stop df)) <->
  exists r0, In r0 (rows df) /\ r = stamped r0 /\
             in_window start stop (instant_of (ts r0)) = true.
Proof.
  rewrite rows_day_frame, filter_In, in_map_iff. split.
  - intros [[r0 [<- Hin]] Hw]. exists r0. auto.
  - intros [r0 [Hin [-> Hw]]]. split; [exists r0; auto | exact Hw].
Qed.

Lemma stamped_rows_fixed (start stop : Z) (df : DataFrame) :
  map stamped (rows (day_frame start stop df)) = rows (day_frame start stop df).
Proof.
  rewrite rows_day_frame.
  induction (rows df) as [|r l IH]; [reflexivity|].
  cbn [map filter].
  destruct (in_window start stop (dt (stamped r))); [|exact IH].
  cbn [map]. rewrite stamped_idem, IH. reflexivity.
Qed.

Lemma forallb_filter_map {A B : Type} (p : B -> bool) (g : A -> B)
      (f : A -> bool) (l : list A) :
  forallb p (map g l) = true -> forallb p (map g (filter f l)) = true.
Proof.
  induction l as [|a l IH]; simpl; [auto|].
  intros [Ha Hl]%andb_prop. destruct (f a); simpl; [rewrite Ha|]; auto.
Qed.

Lemma day_frame_idem (start stop : Z) (df : DataFrame) :
  day_frame start stop (day_frame start stop df) = day_frame start stop df.
Proof.
  unfold day_frame at 1. rewrite has_dt_day_frame, stamped_rows_fixed.
  rewrite rows_day_frame, filter_idem. reflexivity.
Qed.

(** Re-filtering what [filter_day] returned, for the same day, returns it
    unchanged. *)
Lemma filter_day_fixed (tz : tzinfo) (day : Z) (df d : DataFrame) :
  filter_day tz day df = Ok d -> filter_day tz day d = Ok d.
Proof.
  intros H. destruct (filter_day_inv _ _ _ _ H)
    as (start & stop & Hts & Hrange & Hs & He & ->).
  rewrite filter_day_unfold, has_column_day_frame by exact Hts.
  replace (forallb in_range (map ts (rows (day_frame start stop df)))) with true.
  - rewrite Hs, He; simpl. rewrite day_frame_idem. reflexivity.
  - symmetry. rewrite rows_day_frame.
    apply forallb_filter_map. rewrite map_map.
    erewrite map_ext; [exact Hrange|]. intros r; reflexivity.
Qed.

Lemma select_day_fixed (tz : tzinfo) (day : Z) (df d : DataFrame) :
  select_day tz day df = Ok d -> select_day tz day d = Ok d.
Proof.
  unfold select_day. destruct (empty df) eqn:E; simpl.
  - intros [= <-]. rewrite E. reflexivity.
  - intros H. destruct (empty d); simpl; [reflexivity|].
    eapply filter_day_fixed; eauto.
Qed.

(** C7 - The day filter is idempotent: filtering the result of the day
    filter again, for the same day, gives the same frame (and an exception
    of the first pass is the outcome of both).  This holds for lines 176-180
    alone ([filter_day]) and with the emptiness test of line 174 around them
    ([select_day]). *)
Theorem day_filter_idempotent (tz : tzinfo) (day : Z) (df : DataFrame) :
  bind (filter_day tz day df) (filter_day tz day) = filter_day tz day df /\
  bind (select_day tz day df) (select_day tz day) = select_day tz day df.
Proof.
  split.
  - destruct (filter_day tz day df) as [d|e] eqn:H; simpl; [|reflexivity].
    eapply filter_day_fixed; eauto.
  - destruct (select_day tz day df) as [d|e] eqn:H; simpl; [|reflexivity].
    eapply select_day_fixed; eauto.
Qed.

Lemma in_day_frame_stamped (start stop : Z) (df : DataFrame) (r : Row) :
  In r (rows df) ->
  In (stamped r) (rows (day_frame start stop df)) <->
  in_window start stop (instant_of (ts r)) = true.
Proof.
  intros Hin. rewrite in_day_frame. split.
  - intros (r0 & _ & Heq & Hw).
    apply (f_equal ts) in Heq. rewrite !stamped_ts in Heq.
    rewrite Heq. exact Hw.
  - intros Hw. exists r. auto.
Qed.

Lemma in_window_spec (start stop : Z) (c : option Z) :
  in_window start stop (instant_of c) = true <->
  exists t, c = Some t /\ start <= t * NS_PER_S <= stop.
Proof.
  destruct c as [t|]; simpl.
  - rewrite andb_true_iff, !Z.leb_le. split.
    + intros H. exists t. auto.
    + intros (t' & [= <-] & H). exact H.
  - split; [discriminate | intros (t & [=] & _)].
Qed.

(** The bounds of a regular day: its first instant, and the first instant of
    the next day, one microsecond after the [day_end] of line 178. *)
Lemma regular_day_bounds (tz : tzinfo) (day : Z) :
  regular_day tz day ->
  exists a b : Z,
    day_start tz day = Ok (a * NS_PER_S) /\
    day_end tz day = Ok (b * NS_PER_S - 1000) /\
    day_start tz (day + 1) = Ok (b * NS_PER_S) /\
    a < b.
Proof.
  intros (o1 & o2 & H1 & H2 & H3 & Hlt).
  exists (day * 86400 - o1), ((day + 1) * 86400 - o2).
  unfold day_start, day_end, tz_localize. rewrite H1, H2, H3. simpl.
  unfold Time.combine, time_min, time_max, NS_PER_DAY, NS_PER_S.
  repeat split; first [lia | f_equal; lia].
Qed.

(** C1 - Membership in the day window is the half-open interval between the
    two local midnights that bound the day: a record of the fetched frame is
    in the filtered frame of a day iff its instant [t] (epoch seconds, as
    nanoseconds) satisfies [start <= t < next], where [start] and [next] are
    the instants of local midnight of the day and of the day after.  In
    particular a record at local midnight is in the day, and a record one
    second before local midnight is in the previous day and not in the
    day.  Timestamps are whole epoch seconds, the days are regular days of
    the zone (no change of UTC offset at midnight), and the filter has run
    without raising. *)
Theorem day_window_membership
        (tz : tzinfo) (day : Z) (df d d_prev : DataFrame) (start next : Z) :
  regular_day tz (day - 1) ->
  regular_day tz day ->
  day_start tz day = Ok start ->
  day_start tz (day + 1) = Ok next ->
  filter_day tz day df = Ok d ->
  filter_day tz (day - 1) df = Ok d_prev ->
  forall r : Row, In r (rows df) ->
    (In (stamped r) (rows d) <->
       exists t, ts r = Some t /\ start <= t * NS_PER_S < next) /\
    (forall t, ts r = Some t -> t * NS_PER_S = start ->
       In (stamped r) (rows d)) /\
    (forall t, ts r = Some t -> t * NS_PER_S = start - NS_PER_S ->
       In (stamped r) (rows d_prev) /\ ~ In (stamped r) (rows d)).
Proof.
  intros Hprev Hday Hstart Hnext Hd Hdp r Hin.
  destruct (regular_day_bounds _ _ Hday) as (a & b & Ha & Hb & Hb' & Hab).
  destruct (regular_day_bounds _ _ Hprev) as (a0 & b0 & Ha0 & Hb0 & Hb0' & Hab0).
  replace (day - 1 + 1) with day in Hb0' by lia.
  rewrite Ha in Hstart, Hb0'. rewrite Hb' in Hnext.
  injection Hstart as <-. injection Hnext as <-. injection Hb0' as Hb0'.
  assert (b0 = a) as -> by (unfold NS_PER_S in Hb0'; lia).
  destruct (filter_day_inv _ _ _ _ Hd) as (s & e & _ & _ & Hs & He & ->).
  destruct (filter_day_inv _ _ _ _ Hdp) as (s0 & e0 & _ & _ & Hs0 & He0 & ->).
  rewrite Ha in Hs. rewrite Hb in He. rewrite Ha0 in Hs0. rewrite Hb0 in He0.
  injection Hs as <-. injection He as <-. injection Hs0 as <-. injection He0 as <-.
  pose proof (in_day_frame_stamped (a * NS_PER_S) (b * NS_PER_S - 1000) df r Hin) as Hmem.
  pose proof (in_day_frame_stamped (a0 * NS_PER_S) (a * NS_PER_S - 1000) df r Hin) as Hmemp.
  rewrite in_window_spec in Hmem, Hmemp.
  split; [|split].
  - rewrite Hmem. split; intros (t & Ht & H); exists t; (split; [exact Ht|]);
      unfold NS_PER_S in *; lia.
  - intros t Ht Heq. apply Hmem. exists t. split; [exact Ht|].
    unfold NS_PER_S in *. lia.
  - intros t Ht Heq. split.
    + apply Hmemp. exists t. split; [exact Ht|]. unfold NS_PER_S in *. lia.
    + rewrite Hmem. intros (t' & Ht' & H). rewrite Ht in Ht'. injection Ht' as <-.
      unfold NS_PER_S in *. lia.
Qed.

(** The day of [Samples.log]: the record at local midnight is in the day, as
    the half-open interval says. *)
Lemma day_window_membership_witness :
  let r := row_of Samples.at_midnight in
  In (stamped r)
     (rows (day_frame 1728021600000000000 1728107999999999000 Samples.log)) <->
  exists t, ts r = Some t /\
            1728021600000000000 <= t * NS_PER_S < 1728108000000000000.
Proof.
  intros r.
  refine (proj1 (day_window_membership
                   Mexico_City_CST Samples.DAY Samples.log
                   (day_frame 1728021600000000000 1728107999999999000 Samples.log)
                   (day_frame 1727935200000000000 1728021599999999000 Samples.log)
                   1728021600000000000 1728108000000000000
                   _ _ _ _ _ _ r _)).
  - exists (-21600), (-21600). repeat split; reflexivity.
  - exists (-21600), (-21600). repeat split; reflexivity.
  - reflexivity.
  - reflexivity.
  - reflexivity.
  - reflexivity.
  - right. left. reflexivity.
Defined.

(** The window of line 179 is closed at 23:59:59.999999: an instant within
    the last microsecond of a day would be in neither that day nor the next.
    Whole epoch seconds never fall there. *)
Lemma last_microsecond_in_no_day :
  in_window 1728021600000000000 1728107999999999000 (Some 1728107999999999500) = false /\
  in_window 1728108000000000000 1728194399999999000 (Some 1728107999999999500) = false.
Proof. split; reflexivity. Qed.

(** C3 - An empty record sequence gives an aggregate whose counts are all
    zero and whose means are absent: the three counters are 0, the average
    speed is the dash, no map centre is computed, and nothing raises (no
    warning is recorded and the panel is the note that the day has no
    rows). *)
Theorem empty_input_aggregate (tz : tzinfo) (day : Z) :
  let v := daily_view tz day (Ok []) in
  warning v = None /\
  metrics v = {| rows_selected_day := 0; total_fetched_rows := 0;
                 valid_gps_rows := 0; avg_speed := Dash |} /\
  day_panel (df_day v) = Ok NoRows.
Proof. repeat split. Qed.

(** *** Counting valid fixes *)

Lemma sum_bool_is_fix (l : list Row) :
  sum_bool (map fix_ok l) = Z.of_nat (List.length (filter is_fix l)).
Proof.
  unfold sum_bool. f_equal.
  induction l as [|r l IH]; [reflexivity|].
  cbn [map present flat_map filter]. unfold is_fix at 1.
  destruct (fix_ok r) as [[|]|]; cbn [app filter List.length]; rewrite <- IH;
    reflexivity.
Qed.

Lemma length_filter_split {A : Type} (f : A -> bool) (l : list A) :
  List.length l =
    (List.length (filter f l) + List.length (filter (fun a => negb (f a)) l))%nat.
Proof.
  induction l as [|a l IH]; [reflexivity|].
  cbn [filter]. destruct (f a); cbn [negb List.length]; lia.
Qed.

Lemma existsb_eqb_filter (c : string) (p : string -> bool) (l : list string) :
  existsb (String.eqb c) (filter p l) = p c && existsb (String.eqb c) l.
Proof.
  induction l as [|x l IH]; cbn [filter existsb]; [now rewrite andb_false_r|].
  destruct (String.eqb_spec c x) as [->|Hne].
  - destruct (p x); cbn [existsb]; [now rewrite String.eqb_refl|].
    rewrite IH. reflexivity.
  - destruct (p x); cbn [existsb orb].
    + destruct (String.eqb_spec c x); [contradiction|]. exact IH.
    + exact IH.
Qed.

Lemma filter_is_fix_none (l : list Row) :
  (forall r, In r l -> fix_ok r = None) -> filter is_fix l = [].
Proof.
  induction l as [|r l IH]; intros H; [reflexivity|].
  cbn [filter]. unfold is_fix at 1. rewrite (H r (or_introl eq_refl)).
  apply IH. intros r' Hr'. apply H. right. exact Hr'.
Qed.

Lemma from_records_consistent (data : list RawRecord) :
  fix_consistent (from_records data).
Proof.
  unfold fix_consistent, has_column, from_records; cbn [columns rows].
  rewrite existsb_eqb_filter. change (existsb (String.eqb "fix_ok") SCHEMA) with true.
  rewrite andb_true_r. change (raw_has "fix_ok") with (fun r => has_key (raw_fix_ok r)).
  intros H. apply filter_is_fix_none. intros r [raw [<- Hin]]%in_map_iff.
  cbn [row_of fix_ok].
  destruct (raw_fix_ok raw) eqn:E; try reflexivity.
  exfalso. assert (existsb (fun r => has_key (raw_fix_ok r)) data = true).
  { apply existsb_exists. exists raw. rewrite E. auto. }
  congruence.
Qed.

Lemma frame_of_consistent (data : list RawRecord) : fix_consistent (frame_of data).
Proof.
  destruct data; [intros _; reflexivity | apply from_records_consistent].
Qed.

Lemma filter_is_fix_stamped (f : Row -> bool) (l : list Row) :
  filter is_fix l = [] -> filter is_fix (filter f (map stamped l)) = [].
Proof.
  induction l as [|r l IH]; [reflexivity|].
  cbn [filter map]. destruct (is_fix r) eqn:E; [discriminate|].
  intros H. destruct (f (stamped r)); [|exact (IH H)].
  cbn [filter]. change (is_fix (stamped r)) with (is_fix r). rewrite E.
  exact (IH H).
Qed.

Lemma day_frame_consistent (start stop : Z) (df : DataFrame) :
  fix_consistent df -> fix_consistent (day_frame start stop df).
Proof.
  intros Hdf Hcol. rewrite rows_day_frame. apply filter_is_fix_stamped.
  apply Hdf. destruct (has_column "fix_ok" df) eqn:E; [|reflexivity].
  rewrite (has_column_day_frame _ start stop _ E) in Hcol. discriminate.
Qed.

Lemma daily_view_consistent (tz : tzinfo) (day : Z)
      (fetched : result (list RawRecord)) :
  fix_consistent (df_day (daily_view tz day fetched)).
Proof.
  destruct fetched as [data|e]; [|intros _; reflexivity].
  unfold daily_view.
  destruct (select_day tz day (frame_of data)) as [d|e] eqn:H;
    [|intros _; reflexivity].
  cbn [df_day]. unfold select_day in H.
  destruct (negb (empty (frame_of data))).
  - destruct (filter_day_inv _ _ _ _ H) as (s & e & _ & _ & _ & _ & ->).
    apply day_frame_consistent, frame_of_consistent.
  - injection H as <-. apply frame_of_consistent.
Qed.

Lemma empty_no_column (c : string) (df : DataFrame) :
  empty df = true -> rows df = [] \/ has_column c df = false.
Proof.
  unfold empty, has_column.
  destruct (rows df); [auto|]. destruct (columns df); [auto|discriminate].
Qed.

(** The count of valid fixes of a consistent frame is the number of its rows
    whose [fix_ok] is true. *)
Lemma valid_gps_rows_count (v : DailyFrames) :
  fix_consistent (df_day v) ->
  valid_gps_rows (metrics v) =
    Z.of_nat (List.length (filter is_fix (rows (df_day v)))).
Proof.
  intros Hc. unfold metrics; cbn [valid_gps_rows].
  destruct (empty (df_day v)) eqn:E; cbn [negb andb].
  - destruct (empty_no_column "fix_ok" _ E) as [-> | Hcol]; [reflexivity|].
    rewrite (Hc Hcol). reflexivity.
  - destruct (has_column "fix_ok" (df_day v)) eqn:Hcol.
    + apply sum_bool_is_fix.
    + rewrite (Hc Hcol). reflexivity.
Qed.

(** C4 - Whatever was fetched, the count of valid fixes of the selected day
    is the number of its records whose [fix_ok] is true, and the row count of
    the day is that number plus the number of the other records: a record
    with [fix_ok = false] counts as a row and not as a valid fix. *)
Theorem valid_fix_rows_count (tz : tzinfo) (day : Z)
        (fetched : result (list RawRecord)) :
  let v := daily_view tz day fetched in
  valid_gps_rows (metrics v) =
    Z.of_nat (List.length (filter is_fix (rows (df_day v)))) /\
  rows_selected_day (metrics v) =
    valid_gps_rows (metrics v) +
    Z.of_nat (List.length (filter (fun r => negb (is_fix r)) (rows (df_day v)))).
Proof.
  intros v.
  pose proof (valid_gps_rows_count v (daily_view_consistent tz day fetched)) as H.
  split; [exact H|]. rewrite H.
  change (rows_selected_day (metrics v)) with (len (df_day v)). unfold len.
  rewrite (length_filter_split is_fix). lia.
Qed.

(** The fallback of line 184 and what the metrics make of it. *)
Lemma fetch_failure_fallback (tz : tzinfo) (day : Z) (e : exn) :
  let v := daily_view tz day (Raise e) in
  df_day v = empty_frame SCHEMA_DT /\
  warning v = Some e /\
  metrics v = {| rows_selected_day := 0; total_fetched_rows := 0;
                 valid_gps_rows := 0; avg_speed := Dash |} /\
  day_panel (df_day v) = Ok NoRows.
Proof. repeat split. Qed.

(** A failure after line 173, here records that all lack [ts], leaves
    [df_all] bound: the fetched rows are still counted. *)
Lemma failure_after_fetch_counts_rows :
  let v := daily_view Mexico_City_CST Samples.DAY
                      (Ok [Samples.record_without_timestamp]) in
  warning v = Some (KeyError "ts") /\
  rows_selected_day (metrics v) = 0 /\
  total_fetched_rows (metrics v) = 1.
Proof. repeat split. Qed.

(** *** The centre of the day's map *)

Lemma mean_present (cells : list (option Q)) :
  notna_any cells = true ->
  exists a, mean cells = Some a /\ is_mean_of (present cells) a.
Proof.
  unfold notna_any, mean, is_mean_of.
  destruct (present cells) as [|x xs] eqn:E; [discriminate|]. intros _.
  eexists. split; [reflexivity|]. split; [discriminate|].
  set (n := inject_Z (Z.of_nat (List.length (x :: xs)))).
  assert (Hn : ~ (n == 0)%Q).
  { unfold n, Qeq; cbn [List.length Qnum Qden inject_Z]. lia. }
  rewrite Qmult_comm. apply Qmult_div_r. exact Hn.
Qed.




(** The map of the preview (line 77) takes the plain means, which are NaN
    exactly when no coordinate is present. *)
Lemma preview_view_means (df : DataFrame) :
  has_column "lat" df = true ->
  has_column "lon" df = true ->
  preview_view df = Ok {| latitude := mean (map lat (rows df));
                          longitude := mean (map lon (rows df));
                          zoom := 15 |} /\
  (forall cells, mean cells = None <-> present cells = []).
Proof.
  intros Hlat Hlon. split.
  - unfold preview_view, column. rewrite Hlat, Hlon. reflexivity.
  - intros cells. unfold mean. destruct (present cells); split;
      intros H; try reflexivity; discriminate.
Qed.


(** *** Records without a usable timestamp *)

Lemma rows_frame_of (data : list RawRecord) :
  rows (frame_of data) = map row_of data.
Proof. destruct data; reflexivity. Qed.

Lemma total_fetched_rows_all (tz : tzinfo) (day : Z) (data : list RawRecord) :
  total_fetched_rows (metrics (daily_view tz day (Ok data))) =
    Z.of_nat (List.length data).
Proof.
  unfold daily_view.
  destruct (select_day tz day (frame_of data));
    cbn [metrics total_fetched_rows df_all]; unfold len;
    rewrite rows_frame_of, length_map; reflexivity.
Qed.

Lemma cell_of_present {A : Type} (f : field A) (a : A) :
  cell_of f = Some a <-> f = Present a.
Proof.
  destruct f; cbn [cell_of]; split; intros H; try discriminate; congruence.
Qed.

(** C6 (as the code has it) - Nothing is dropped when the fetched records
    are made into a frame, and no count of dropped records exists: every
    fetched record counts in "Total fetched rows".  When the day filter
    runs, a fetched record is in the day's frame iff it has a timestamp whose
    instant lies between [day_start] and [day_end]; the sign of the
    timestamp plays no part, and a record without timestamp is in no day. *)
Theorem fetched_records_kept
        (tz : tzinfo) (day : Z) (data : list RawRecord)
        (d : DataFrame) (start stop : Z) :
  filter_day tz day (frame_of data) = Ok d ->
  day_start tz day = Ok start ->
  day_end tz day = Ok stop ->
  total_fetched_rows (metrics (daily_view tz day (Ok data))) =
    Z.of_nat (List.length data) /\
  forall raw : RawRecord, In raw data ->
    (In (stamped (row_of raw)) (rows d) <->
       exists t, raw_ts raw = Present t /\ start <= t * NS_PER_S <= stop).
Proof.
  intros Hd Hs He. split; [apply total_fetched_rows_all|].
  intros raw Hin.
  destruct (filter_day_inv _ _ _ _ Hd) as (s & e & _ & _ & Hs' & He' & ->).
  rewrite Hs in Hs'. rewrite He in He'. injection Hs' as <-. injection He' as <-.
  rewrite in_day_frame_stamped
    by (rewrite rows_frame_of; apply in_map; exact Hin).
  rewrite in_window_spec. cbn [row_of ts].
  split; intros (t & Ht & H); exists t; (split; [|exact H]);
    apply cell_of_present; exact Ht.
Qed.

(** The log of 2024-10-04 with a record of timestamp -1 before it. *)
Lemma fetched_records_kept_witness :
  total_fetched_rows
    (metrics (daily_view Mexico_City_CST Samples.DAY
                (Ok [Samples.record_at (-1) true; Samples.at_midnight]))) = 2 /\
  In (stamped (row_of Samples.at_midnight))
     (rows (day_frame 1728021600000000000 1728107999999999000
                      (frame_of [Samples.record_at (-1) true; Samples.at_midnight]))) /\
  ~ In (stamped (row_of (Samples.record_at (-1) true)))
       (rows (day_frame 1728021600000000000 1728107999999999000
                        (frame_of [Samples.record_at (-1) true; Samples.at_midnight]))).
Proof.
  destruct (fetched_records_kept
              Mexico_City_CST Samples.DAY
              [Samples.record_at (-1) true; Samples.at_midnight]
              (day_frame 1728021600000000000 1728107999999999000
                         (frame_of [Samples.record_at (-1) true; Samples.at_midnight]))
              1728021600000000000 1728107999999999000
              eq_refl eq_refl eq_refl) as [Hn Hmem].
  split; [exact Hn|]. split.
  - apply (Hmem Samples.at_midnight); [right; left; reflexivity|].
    exists Samples.MIDNIGHT. split; [reflexivity|].
    unfold NS_PER_S, Samples.MIDNIGHT. lia.
  - intros H. apply (Hmem (Samples.record_at (-1) true)) in H;
      [|left; reflexivity].
    destruct H as (t & [= <-] & H). unfold NS_PER_S in H. lia.
Defined.

(** C6, the claim as stated fails - On 2024-10-04 the device serves a record
    with the negative timestamp -1 and a record of the day.  The negative
    record is not dropped when the records are made into the frame: it is a
    row of [df_all] and counts among the two fetched rows; no warning is
    recorded and nothing tells that a record was left out of the day. *)
Lemma negative_timestamp_is_kept :
  let v := daily_view Mexico_City_CST Samples.DAY
                      (Ok [Samples.record_at (-1) true; Samples.at_midnight]) in
  option_map (fun a => map ts (rows a)) (df_all v) =
    Some [Some (-1); Some Samples.MIDNIGHT] /\
  warning v = None /\
  total_fetched_rows (metrics v) = 2 /\
  rows_selected_day (metrics v) = 1.
Proof. repeat split. Qed.

End DailyFacts.

(** ** Division of binary64 numbers

    The quotient of two normal numbers, followed through [SFdiv]: the
    mantissas are divided as integers, and the 53 or 54 bits of the quotient
    are rounded to nearest, ties to even. *)

Module Binary64Facts.
Import Binary64.


(** The number of bits of a mantissa, by its size. *)
Lemma digits2_pos_bounds (p : positive) :
  2 ^ (Zpos (digits2_pos p) - 1) <= Zpos p < 2 ^ Zpos (digits2_pos p).
Proof.
  induction p as [p IH|p IH|]; cbn [digits2_pos].
  - rewrite Pos2Z.inj_succ.
    replace (Z.succ (Zpos (digits2_pos p)) - 1) with (Z.succ (Zpos (digits2_pos p) - 1)) by lia.
    rewrite !Z.pow_succ_r by lia. lia.
  - rewrite Pos2Z.inj_succ.
    replace (Z.succ (Zpos (digits2_pos p)) - 1) with (Z.succ (Zpos (digits2_pos p) - 1)) by lia.
    rewrite !Z.pow_succ_r by lia. lia.
  - cbn. lia.
Qed.

Lemma digits2_pos_unique (p : positive) (n : Z) :
  2 ^ (n - 1) <= Zpos p < 2 ^ n -> Zpos (digits2_pos p) = n.
Proof.
  intros [Hlo Hhi]. pose proof (digits2_pos_bounds p) as [Dlo Dhi].
  assert (0 < n).
  { destruct (Z.ltb_spec 0 n); [assumption|].
    exfalso. destruct (Z.eqb_spec n 0) as [->|]; [cbn in Hhi; lia|].
    rewrite Z.pow_neg_r in Hhi by lia. lia. }
  assert (n - 1 < Zpos (digits2_pos p)).
  { apply (Z.pow_lt_mono_r_iff 2); lia. }
  assert (Zpos (digits2_pos p) - 1 < n).
  { apply (Z.pow_lt_mono_r_iff 2); lia. }
  lia.
Qed.


(** A binary64 number between two positive finite numbers is positive and
    finite, with an exponent between theirs. *)
Lemma between_finite (m1 : positive) (e1 : Z) (m2 : positive) (e2 : Z)
      (x : spec_float) :
  SFleb (S754_finite false m1 e1) x = true ->
  SFleb x (S754_finite false m2 e2) = true ->
  exists m e, x = S754_finite false m e /\ e1 <= e <= e2.
Proof.
  destruct x as [s|s| |s m e]; unfold SFleb; cbn [SFcompare];
    try discriminate.
  - destruct s; discriminate.
  - destruct s; [discriminate|].
    destruct (Z.compare_spec e1 e); destruct (Z.compare_spec e e2);
      try discriminate; intros _ _; exists m, e; (split; [reflexivity|lia]).
Qed.

(** Above the smallest exponent a valid mantissa has 53 bits. *)
Lemma normal_mantissa (m : positive) (e : Z) :
  valid_binary (S754_finite false m e) = true -> -1074 < e ->
  2 ^ 52 <= Zpos m < 2 ^ 53.
Proof.
  cbn [SpecFloat.valid_binary]. unfold bounded, canonical_mantissa, fexp, emin, prec, emax.
  intros [Hc _]%andb_prop He. apply Z.eqb_eq in Hc.
  pose proof (digits2_pos_bounds m) as H.
  replace (Zpos (digits2_pos m)) with 53 in H by lia. exact H.
Qed.

(** The location of a remainder [r] of a division by [d]: exact, or below,
    at or above the half. *)
Lemma new_location_spec (d r : Z) :
  0 < d -> 0 <= r < d ->
  new_location d r = if r =? 0 then loc_Exact else loc_Inexact (2 * r ?= d).
Proof.
  intros Hd Hr. unfold new_location, new_location_even, new_location_odd.
  destruct (Z.even d) eqn:Ev; [reflexivity|].
  destruct (r =? 0); [reflexivity|]. f_equal.
  assert (Z.odd d = true) as Hodd by (rewrite <- Z.negb_even, Ev; reflexivity).
  apply Z.odd_spec in Hodd. destruct Hodd as [k ->].
  destruct (Z.compare_spec (2 * r + 1) (2 * k + 1));
    destruct (Z.compare_spec (2 * r) (2 * k + 1)); try reflexivity; lia.
Qed.


(** A quotient of 53 bits is kept as it is, one of 54 bits loses its last
    bit to the rounding record. *)
Lemma shr_fexp_53 (q e : Z) (l : location) :
  2 ^ 52 <= q < 2 ^ 53 -> -1074 <= e ->
  shr_fexp prec emax q e l = (shr_record_of_loc q l, e).
Proof.
  intros Hq He. unfold shr_fexp. destruct q as [|p|p]; try lia.
  cbn [Zdigits2]. rewrite (digits2_pos_unique p 53) by lia.
  unfold fexp, emin, prec, emax.
  replace (Z.max (53 + e - 53) (3 - 1024 - 53) - e) with 0 by lia.
  reflexivity.
Qed.

Lemma shr_fexp_54 (q e : Z) (l : location) :
  2 ^ 53 <= q < 2 ^ 54 -> -1075 <= e ->
  shr_fexp prec emax q e l = (shr_1 (shr_record_of_loc q l), e + 1).
Proof.
  intros Hq He. unfold shr_fexp. destruct q as [|p|p]; try lia.
  cbn [Zdigits2]. rewrite (digits2_pos_unique p 54) by lia.
  unfold fexp, emin, prec, emax.
  replace (Z.max (54 + e - 53) (3 - 1024 - 53) - e) with 1 by lia.
  reflexivity.
Qed.

Lemma loc_of_shr_record_of_loc (m : Z) (l : location) :
  loc_of_shr_record (shr_record_of_loc m l) = l.
Proof. destruct l as [|[| |]]; reflexivity. Qed.

Lemma shr_m_of_loc (m : Z) (l : location) : shr_m (shr_record_of_loc m l) = m.
Proof. destruct l as [|[| |]]; reflexivity. Qed.

Lemma normalize_step (m e : Z) :
  2 ^ 52 <= m <= 2 ^ 53 -> -1074 <= e <= 970 ->
  (let '(mrs, e') := shr_fexp prec emax m e loc_Exact in
   match shr_m mrs with
   | Z0 => S754_zero false
   | Zpos p => if e' <=? emax - prec then S754_finite false p e'
               else S754_infinity false
   | Zneg _ => S754_nan
   end) = normalized m e.
Proof.
  intros Hm He. unfold normalized.
  destruct (Z.eqb_spec m (2 ^ 53)) as [->|Hne].
  - rewrite shr_fexp_54 by lia. cbn [shr_record_of_loc].
    change (shr_m (shr_1 {| shr_m := 2 ^ 53; shr_r := false; shr_s := false |}))
      with (2 ^ 52).
    change (2 ^ 52) with (Zpos (Z.to_pos (2 ^ 52))) at 1. cbv iota beta.
    unfold emax, prec. destruct (Z.leb_spec (e + 1) (1024 - 53)); [reflexivity|lia].
  - rewrite shr_fexp_53 by lia. cbn [shr_record_of_loc shr_m].
    destruct m as [|p|p]; try lia. cbn [Z.to_pos].
    unfold emax, prec. destruct (Z.leb_spec e (1024 - 53)); [reflexivity|lia].
Qed.


(** Rounding to nearest, ties to even. *)
Lemma rne_bounds (m : Z) (l : location) :
  m <= round_nearest_even m l <= m + 1.
Proof.
  destruct l as [|[| |]]; cbn [round_nearest_even]; try lia.
  destruct (Z.even m); lia.
Qed.

Lemma round_53 (q e : Z) (lz : location) :
  2 ^ 52 <= q < 2 ^ 53 -> -1074 <= e <= 970 ->
  binary_round_aux prec emax false q e lz = normalized (round_nearest_even q lz) e.
Proof.
  intros Hq He. unfold binary_round_aux.
  rewrite shr_fexp_53 by lia.
  rewrite loc_of_shr_record_of_loc, shr_m_of_loc.
  apply normalize_step; [|lia].
  pose proof (rne_bounds q lz). lia.
Qed.

Lemma shr_1_m (mrs : shr_record) :
  0 <= shr_m mrs -> shr_m (shr_1 mrs) = Z.div2 (shr_m mrs).
Proof.
  destruct mrs as [m r s]; cbn [shr_m]. intros Hm.
  destruct m as [|[p|p|]|p]; try reflexivity; lia.
Qed.

Lemma round_54 (q e : Z) (lz : location) :
  2 ^ 53 <= q < 2 ^ 54 -> -1075 <= e <= 969 ->
  binary_round_aux prec emax false q e lz =
    let mrs := shr_1 (shr_record_of_loc q lz) in
    normalized (round_nearest_even (shr_m mrs) (loc_of_shr_record mrs)) (e + 1).
Proof.
  intros Hq He. unfold binary_round_aux.
  rewrite shr_fexp_54 by lia. cbv zeta.
  apply normalize_step; [|lia].
  pose proof (rne_bounds (shr_m (shr_1 (shr_record_of_loc q lz)))
                         (loc_of_shr_record (shr_1 (shr_record_of_loc q lz)))) as H.
  rewrite shr_1_m in * by (rewrite shr_m_of_loc; lia).
  rewrite shr_m_of_loc in *. rewrite Z.div2_div in *.
  assert (2 ^ 52 <= q / 2 < 2 ^ 53) by (split; [apply Z.div_le_lower_bound | apply Z.div_lt_upper_bound]; lia).
  lia.
Qed.

(** The rounded mantissa is within half a unit of the exact quotient
    [q + r / d], in both cases. *)
Lemma rne_error_53 (d r q : Z) :
  0 < d -> 0 <= r < d ->
  - d <= 2 * (round_nearest_even q (new_location d r) * d - (q * d + r)) <= d.
Proof.
  intros Hd Hr. rewrite new_location_spec by assumption.
  destruct (Z.eqb_spec r 0) as [->|Hne]; cbn [round_nearest_even]; [lia|].
  destruct (Z.compare_spec (2 * r) d); [destruct (Z.even q)| |]; nia.
Qed.

Lemma rne_error_54 (d r q : Z) :
  0 < d -> 0 <= r < d -> 0 <= q ->
  let mrs := shr_1 (shr_record_of_loc q (new_location d r)) in
  let m1 := round_nearest_even (shr_m mrs) (loc_of_shr_record mrs) in
  - d <= 2 * m1 * d - (q * d + r) <= d.
Proof.
  intros Hd Hr Hq. rewrite new_location_spec by assumption. cbv zeta.
  destruct (Z.eqb_spec r 0) as [->|Hne].
  - destruct q as [|[p|p|]|p]; try lia;
      cbn [shr_record_of_loc shr_1 shr_m loc_of_shr_record orb round_nearest_even];
      try destruct (Z.even (Zpos p)); try rewrite Pos2Z.inj_xI; try rewrite Pos2Z.inj_xO;
        cbn [Z.even]; nia.
  - destruct (Z.compare_spec (2 * r) d);
      destruct q as [|[p|p|]|p]; try lia;
      cbn [shr_record_of_loc shr_1 shr_m loc_of_shr_record orb round_nearest_even];
      try rewrite Pos2Z.inj_xI; try rewrite Pos2Z.inj_xO; nia.
Qed.


(** The integer division [SFdiv] performs on two normal numbers. *)
Lemma SFdiv_core_normal (mx my : positive) (ex ey : Z) :
  2 ^ 52 <= Zpos mx < 2 ^ 53 -> 2 ^ 52 <= Zpos my < 2 ^ 53 ->
  -1021 <= ex - ey ->
  SFdiv_core_binary prec emax (Zpos mx) ex (Zpos my) ey =
    let '(q, r) := Z.div_eucl (Zpos mx * 2 ^ 53) (Zpos my) in
    (q, ex - ey - 53, new_location (Zpos my) r).
Proof.
  intros Hx Hy He. unfold SFdiv_core_binary. cbn [Zdigits2].
  rewrite (digits2_pos_unique mx 53), (digits2_pos_unique my 53) by lia.
  unfold fexp, emin, prec, emax.
  replace (Z.min (Z.max (53 + ex - (53 + ey) - 53) (3 - 1024 - 53)) (ex - ey))
    with (ex - ey - 53) by lia.
  replace (ex - ey - (ex - ey - 53)) with 53 by lia.
  cbv zeta iota beta. rewrite Z.shiftl_mul_pow2 by lia. reflexivity.
Qed.

(** The quotient of two normal numbers whose exponents are not too far
    apart: it is finite and positive, and its mantissa is the exact quotient
    of the mantissas up to a relative error of [2 ^ -53]. *)
Lemma SFdiv_normal (mx my : positive) (ex ey : Z) :
  2 ^ 52 <= Zpos mx < 2 ^ 53 -> 2 ^ 52 <= Zpos my < 2 ^ 53 ->
  -1021 <= ex - ey <= 1021 ->
  exists (m : positive) (k : Z),
    SFdiv prec emax (S754_finite false mx ex) (S754_finite false my ey) =
      S754_finite false m (ex - ey - 53 + k) /\
    0 <= k <= 2 /\
    - (Zpos mx * 2 ^ 53)
      <= 2 ^ 53 * (Zpos m * 2 ^ k * Zpos my - Zpos mx * 2 ^ 53)
      <= Zpos mx * 2 ^ 53.
Proof.
  intros Hx Hy He. cbn [SFdiv xorb].
  rewrite SFdiv_core_normal by lia.
  set (N := Zpos mx * 2 ^ 53). set (d := Zpos my).
  pose proof (Z_div_mod N d ltac:(lia)) as Hdiv.
  destruct (Z.div_eucl N d) as [q r]. destruct Hdiv as [HN Hr].
  assert (Hq : 2 ^ 52 <= q < 2 ^ 54) by (unfold N, d in *; nia).
  set (e := ex - ey - 53).
  destruct (Z.ltb_spec q (2 ^ 53)) as [Hlt|Hge].
  - rewrite round_53 by lia.
    pose proof (rne_error_53 d r q ltac:(lia) Hr) as Herr.
    pose proof (rne_bounds q (new_location d r)) as Hb.
    set (m1 := round_nearest_even q (new_location d r)) in *.
    unfold normalized. destruct (Z.eqb_spec m1 (2 ^ 53)) as [E|E].
    + exists (Z.to_pos (2 ^ 52)), 1. split; [reflexivity|]. split; [lia|].
      change (Zpos (Z.to_pos (2 ^ 52)) * 2 ^ 1) with (2 ^ 53). rewrite <- E. nia.
    + exists (Z.to_pos m1), 0. split; [f_equal; lia|]. split; [lia|].
      rewrite Z2Pos.id by lia. nia.
  - rewrite round_54 by lia. cbv zeta.
    pose proof (rne_error_54 d r q ltac:(lia) Hr ltac:(lia)) as Herr. cbv zeta in Herr.
    pose proof (rne_bounds (shr_m (shr_1 (shr_record_of_loc q (new_location d r))))
                  (loc_of_shr_record (shr_1 (shr_record_of_loc q (new_location d r))))) as Hb.
    rewrite shr_1_m in Hb by (rewrite shr_m_of_loc; lia).
    rewrite shr_m_of_loc, Z.div2_div in Hb.
    set (m1 := round_nearest_even _ _) in *.
    assert (2 ^ 52 <= q / 2) by (apply Z.div_le_lower_bound; lia).
    unfold normalized. destruct (Z.eqb_spec m1 (2 ^ 53)) as [E|E].
    + exists (Z.to_pos (2 ^ 52)), 2. split; [f_equal; lia|]. split; [lia|].
      change (Zpos (Z.to_pos (2 ^ 52)) * 2 ^ 2) with (2 * 2 ^ 53). rewrite <- E. nia.
    + exists (Z.to_pos m1), 1. split; [f_equal; lia|]. split; [lia|].
      rewrite Z2Pos.id by lia. nia.
Qed.


(** Powers of two as rationals. *)
Lemma two_power_nonzero (e : Z) : ~ ((2 # 1) ^ e == 0)%Q.
Proof. apply Qpower_not_0. discriminate. Qed.

Lemma two_power_positive (e : Z) : (0 < (2 # 1) ^ e)%Q.
Proof. apply Qpower_0_lt. reflexivity. Qed.

Lemma two_power_Z (k : Z) : 0 <= k -> ((2 # 1) ^ k == inject_Z (2 ^ k))%Q.
Proof.
  intros Hk. rewrite <- (Z2Nat.id k) by exact Hk.
  induction (Z.to_nat k) as [|n IH]; [reflexivity|].
  rewrite Nat2Z.inj_succ, Z.pow_succ_r by lia.
  unfold Z.succ. rewrite Qpower_plus by discriminate.
  rewrite IH, inject_Z_mult. change ((2 # 1) ^ 1)%Q with (inject_Z 2).
  apply Qmult_comm.
Qed.

(** The same as rationals: the quotient is the exact quotient up to the
    relative error [EPS]. *)
Lemma SFdiv_normal_value (mx my : positive) (ex ey : Z) :
  2 ^ 52 <= Zpos mx < 2 ^ 53 -> 2 ^ 52 <= Zpos my < 2 ^ 53 ->
  -1021 <= ex - ey <= 1021 ->
  let x := S754_finite false mx ex in
  let y := S754_finite false my ey in
  exists (m : positive) (e : Z),
    SFdiv prec emax x y = S754_finite false m e /\
    ((1 - EPS) * (SF2Q x / SF2Q y) <= SF2Q (S754_finite false m e)
     <= (1 + EPS) * (SF2Q x / SF2Q y))%Q.
Proof.
  intros Hx Hy He x y.
  destruct (SFdiv_normal mx my ex ey Hx Hy He) as (m & k & Hz & Hk & Hlo & Hhi).
  exists m, (ex - ey - 53 + k). split; [exact Hz|].
  set (T := ((2 # 1) ^ (ex - ey - 53))%Q).
  assert (HT : (0 < T)%Q) by apply two_power_positive.
  assert (Hz' : (SF2Q (S754_finite false m (ex - ey - 53 + k)) ==
                 inject_Z (Zpos m * 2 ^ k * Zpos my) / inject_Z (Zpos my) * T)%Q).
  { cbn [SF2Q]. rewrite Qpower_plus by discriminate.
    rewrite (two_power_Z k) by lia. fold T. rewrite !inject_Z_mult.
    field. discriminate. }
  assert (Hxy : (SF2Q x / SF2Q y ==
                 inject_Z (Zpos mx * 2 ^ 53) / inject_Z (Zpos my) * T)%Q).
  { unfold x, y; cbn [SF2Q].
    replace ex with (ey + (ex - ey - 53) + 53) at 1 by lia.
    rewrite !Qpower_plus by discriminate. fold T.
    rewrite (two_power_Z 53) by lia. rewrite inject_Z_mult.
    field. split; [discriminate | apply two_power_nonzero]. }
  rewrite Hz', Hxy.
  set (A := Zpos m * 2 ^ k * Zpos my) in *. set (N := Zpos mx * 2 ^ 53) in *.
  assert (HD : (0 < / inject_Z (Zpos my))%Q) by reflexivity.
  split.
  - unfold Qdiv. rewrite !Qmult_assoc.
    apply Qmult_le_compat_r; [|apply Qlt_le_weak, HT].
    apply Qmult_le_compat_r; [|apply Qlt_le_weak, HD].
    unfold Qle, Qmult, Qminus, Qplus, Qopp, EPS, inject_Z; cbn [Qnum Qden]. lia.
  - unfold Qdiv. rewrite !Qmult_assoc.
    apply Qmult_le_compat_r; [|apply Qlt_le_weak, HT].
    apply Qmult_le_compat_r; [|apply Qlt_le_weak, HD].
    unfold Qle, Qmult, Qminus, Qplus, Qopp, EPS, inject_Z; cbn [Qnum Qden]. lia.
Qed.


End Binary64Facts.

(** ** The mission client *)

Module ClientFacts.
Import Http Client Binary64 Binary64Facts.

Section WithDevice.

Variable Json : Type.
Variable St : Type.
Variable device : St -> Request -> result (Response Json) * St.
Variable base : string.

(** A helper sends exactly its request, whatever was sent before, and its
    outcome is read off the device's answer. *)
Lemma request_run (m : method) (path : string) (n : option Z)
      (b : option StartBody) (t : Z) (w : World St) :
  request Json St device base m path n b t w =
    let rq := {| meth := m; url := base ++ path; last := n; data := b;
                 timeout := t |} in
    (answer Json (fst (device (dev St w) rq)),
     {| dev := snd (device (dev St w) rq); sent := sent St w ++ [rq] |}).
Proof.
  unfold request, bindM, send, raise_for_status, json_of, answer, status_ok.
  cbv zeta. destruct (device (dev St w) _) as [[resp|e] s']; cbn [fst snd]; [|reflexivity].
  destruct ((400 <=? status_code resp) && (status_code resp <? 600));
    cbn [negb]; [reflexivity|].
  unfold ret. destruct (json resp); reflexivity.
Qed.

Lemma stop_button_run (w : World St) :
  stop_button Json St device base w =
    (Ok match answer Json (fst (device (dev St w) (stop_request base))) with
        | Ok resp => Stopped Json resp
        | Raise e => StopFailed Json e
        end,
     {| dev := snd (device (dev St w) (stop_request base));
        sent := sent St w ++ [stop_request base] |}).
Proof.
  unfold stop_button, bindM, try_, stop_mission. rewrite request_run. cbv zeta.
  fold (stop_request base).
  destruct (answer Json (fst (device (dev St w) (stop_request base)))); reflexivity.
Qed.

(** C9 - Stopping twice in a row gives two acknowledgments: the client
    keeps no state between the calls, each call sends the same [POST /stop]
    and shows what the device answers.  So when the device acknowledges the
    first stop and, in the state that leaves it in, the second, both
    messages are successes and the two requests sent are the same. *)
Theorem stop_twice_acknowledged
        (w : World St) (r1 r2 : Response Json) (s1 s2 : St) (a1 a2 : Json) :
  device (dev St w) (stop_request base) = (Ok r1, s1) ->
  status_ok Json r1 = true -> json r1 = Some a1 ->
  device s1 (stop_request base) = (Ok r2, s2) ->
  status_ok Json r2 = true -> json r2 = Some a2 ->
  exists w1 w2 : World St,
    stop_button Json St device base w = (Ok (Stopped Json a1), w1) /\
    stop_button Json St device base w1 = (Ok (Stopped Json a2), w2) /\
    sent St w2 = (sent St w ++ [stop_request base; stop_request base])%list /\
    dev St w2 = s2.
Proof.
  intros H1 Hs1 Hj1 H2 Hs2 Hj2.
  exists {| dev := s1; sent := sent St w ++ [stop_request base] |}.
  exists {| dev := s2;
            sent := (sent St w ++ [stop_request base]) ++ [stop_request base] |}.
  rewrite !stop_button_run. cbn [dev sent]. rewrite H1, H2. cbn [fst snd answer].
  rewrite Hs1, Hj1, Hs2, Hj2. repeat split.
  rewrite <- app_assoc. reflexivity.
Qed.

(** *** The start form *)

(** The widget hands over an entry of its range as it is, and in any case a
    number of its range. *)
Lemma number_input_takes_over (lo hi value v : float) :
  (lo <=? v)%float = true -> (v <=? hi)%float = true ->
  number_input lo hi value v = v.
Proof. intros H1 H2. unfold number_input. rewrite H1, H2. reflexivity. Qed.

Lemma number_input_in_range (lo hi value v : float) :
  (lo <=? value)%float = true -> (value <=? hi)%float = true ->
  (lo <=? number_input lo hi value v)%float = true /\
  (number_input lo hi value v <=? hi)%float = true.
Proof.
  intros H1 H2. unfold number_input.
  destruct (lo <=? v)%float eqn:E1; destruct (v <=? hi)%float eqn:E2;
    cbn [andb]; auto.
Qed.

Lemma number_input_int_in_range (lo hi value v : Z) :
  lo <= value <= hi ->
  lo <= number_input_int lo hi value v <= hi.
Proof.
  intros H. unfold number_input_int.
  destruct (Z.leb_spec lo v); destruct (Z.leb_spec v hi); cbn [andb]; lia.
Qed.

(** A number the widgets of velocity and distance hand over is positive. *)
Lemma tenth_le_positive (v : float) :
  (0.1 <=? v)%float = true -> (0 <? v)%float = true.
Proof.
  rewrite leb_spec, ltb_spec.
  change (Prim2SF 0.1) with (S754_finite false 7205759403792794 (-56)).
  change (Prim2SF 0) with (S754_zero false).
  destruct (Prim2SF v) as [s|s| |s m e]; unfold SFleb, SFltb; cbn [SFcompare];
    try discriminate; destruct s; try discriminate; reflexivity.
Qed.

(** The values the form works on lie within the ranges of its widgets. *)
Lemma handed_over_in_ranges (e : Entries) :
  ((0.1 <=? velocity (handed_over e)) = true /\
   (velocity (handed_over e) <=? 100) = true /\
   (0.1 <=? distance (handed_over e)) = true /\
   (distance (handed_over e) <=? 1000) = true /\
   (0 <=? arm_delay (handed_over e)) = true /\
   (arm_delay (handed_over e) <=? 120) = true)%float /\
  1 <= stepper_hz (handed_over e) <= 50000.
Proof.
  cbn [handed_over velocity distance arm_delay stepper_hz].
  destruct (number_input_in_range 0.1 100 10 (velocity e) eq_refl eq_refl).
  destruct (number_input_in_range 0.1 1000 30 (distance e) eq_refl eq_refl).
  destruct (number_input_in_range 0 120 10 (arm_delay e) eq_refl eq_refl).
  pose proof (number_input_int_in_range 1 50000 200 (stepper_hz e) ltac:(lia)).
  repeat split; auto; lia.
Qed.

Lemma handed_over_within_bounds (e : Entries) :
  within_bounds (handed_over e) = true.
Proof.
  destruct (handed_over_in_ranges e) as ((Hv1 & Hv2 & Hd1 & Hd2 & Ha1 & Ha2) & Hs).
  unfold within_bounds.
  rewrite (tenth_le_positive _ Hv1), Hv2, (tenth_le_positive _ Hd1), Hd2, Ha1, Ha2.
  cbn [andb]. apply andb_true_iff. split; apply Z.leb_le; lia.
Qed.

(** What the form does: it shows the interval and, when submitted, sends the
    one request and shows what came of it. *)
Lemma start_form_run (e : Entries) (w : World St) :
  start_form Json St device base e w =
    if start_now e then
      (Ok match answer Json (fst (device (dev St w) (start_request base e))) with
          | Ok resp => Started Json (form_interval e) resp
          | Raise ex => StartFailed Json (form_interval e) ex
          end,
       {| dev := snd (device (dev St w) (start_request base e));
          sent := sent St w ++ [start_request base e] |})
    else (Ok (Computed Json (form_interval e)), w).
Proof.
  unfold start_form. cbv zeta.
  destruct (start_now e); [|reflexivity].
  unfold bindM, try_, start_mission. rewrite request_run. cbv zeta.
  change {| meth := POST; url := base ++ "/start"; last := None;
            data := Some {| interval_s :=
                              computed_interval (number_input 0.1 1000 30 (distance e))
                                                (number_input 0.1 100 10 (velocity e));
                            delay_s := number_input 0 120 10 (arm_delay e);
                            step_hz := number_input_int 1 50000 200 (stepper_hz e) |};
            timeout := 10 |} with (start_request base e).
  change (computed_interval (number_input 0.1 1000 30 (distance e))
                            (number_input 0.1 100 10 (velocity e)))
    with (form_interval e).
  destruct (answer Json (fst (device (dev St w) (start_request base e)))); reflexivity.
Qed.

(** C8 (as the code has it) - The form has no validation that fails: each
    of its four inputs is bounded by its widget (velocity in [0.1, 100],
    distance in [0.1, 1000], delay in [0, 120], step frequency in
    [1, 50000]), which hands over an entry of its range as entered and, for
    an entry outside of it, the value it holds.  So the values the form works
    on always lie within the bounds of the specification, and any request the
    form sends is the [POST /start] built from these values; submitting the
    form sends it whatever was entered. *)
Theorem start_sends_bounded_values (e : Entries) (w : World St) :
  within_bounds (handed_over e) = true /\
  (within_bounds e = true ->
   (0.1 <=? velocity e)%float = true -> (0.1 <=? distance e)%float = true ->
   handed_over e = e) /\
  (forall rq : Request,
     In rq (sent St (snd (start_form Json St device base e w))) ->
     In rq (sent St w) \/
     (start_now e = true /\
      rq = {| meth := POST; url := base ++ "/start"; last := None;
              data := Some {| interval_s := (distance (handed_over e) /
                                             velocity (handed_over e))%float;
                              delay_s := arm_delay (handed_over e);
                              step_hz := stepper_hz (handed_over e) |};
              timeout := 10 |})) /\
  (start_now e = true ->
   sent St (snd (start_form Json St device base e w)) =
     (sent St w ++ [start_request base e])%list).
Proof.
  split; [apply handed_over_within_bounds|]. split; [|split].
  - unfold within_bounds. intros Hb Hv Hd.
    apply andb_true_iff in Hb as [Hf Hz].
    apply andb_true_iff in Hf as [Hf Ha2].
    apply andb_true_iff in Hf as [Hf Ha1].
    apply andb_true_iff in Hf as [Hf Hd2].
    apply andb_true_iff in Hf as [Hf _].
    apply andb_true_iff in Hf as [_ Hv2].
    destruct e as [v d a hz now]. cbn [velocity distance arm_delay stepper_hz] in *.
    unfold handed_over. cbn [velocity distance arm_delay stepper_hz start_now].
    rewrite (number_input_takes_over 0.1 100 10 v Hv Hv2).
    rewrite (number_input_takes_over 0.1 1000 30 d Hd Hd2).
    rewrite (number_input_takes_over 0 120 10 a Ha1 Ha2).
    unfold number_input_int. rewrite Hz. reflexivity.
  - intros rq. rewrite start_form_run. destruct (start_now e); cbn [snd sent].
    + rewrite in_app_iff. intros [H|[<-|[]]]; [left; exact H|].
      right. split; reflexivity.
    + intros H. left. exact H.
  - intros Hn. rewrite start_form_run, Hn. reflexivity.
Qed.

End WithDevice.

(** Two stops against a device that acknowledges every request. *)
Lemma stop_twice_acknowledged_witness :
  exists w1 w2 : World unit,
    stop_button string unit Samples.acknowledging "http://192.168.4.1"
                {| dev := tt; sent := [] |} = (Ok (Stopped string "ok"), w1) /\
    stop_button string unit Samples.acknowledging "http://192.168.4.1" w1 =
      (Ok (Stopped string "ok"), w2) /\
    sent unit w2 = [stop_request "http://192.168.4.1";
                    stop_request "http://192.168.4.1"] /\
    dev unit w2 = tt.
Proof.
  exact (stop_twice_acknowledged
           string unit Samples.acknowledging "http://192.168.4.1"
           {| dev := tt; sent := [] |}
           {| status_code := 200; json := Some "ok" |}
           {| status_code := 200; json := Some "ok" |}
           tt tt "ok" "ok"
           eq_refl eq_refl eq_refl eq_refl eq_refl eq_refl).
Defined.

(** C8, the claim as stated fails - A step frequency of 50001 is entered,
    outside the bounds, and the form is submitted: nothing is rejected, the
    widget hands over its value 200 and the request is sent to the device. *)
Lemma out_of_range_entry_still_sends :
  let e := {| velocity := 10; distance := 30; arm_delay := 10;
              stepper_hz := 50001; start_now := true |} in
  within_bounds e = false /\
  start_form string unit Samples.acknowledging "http://192.168.4.1" e
             {| dev := tt; sent := [] |} =
    (Ok (Started string 3 "ok"),
     {| dev := tt;
        sent := [ {| meth := POST; url := "http://192.168.4.1/start";
                     last := None;
                     data := Some {| interval_s := 3; delay_s := 10;
                                     step_hz := 200 |};
                     timeout := 10 |} ] |}).
Proof. split; reflexivity. Qed.

(** *** The interval of the form *)

(** A number that lies between two positive normal bounds is positive
    and normal. *)
Lemma accepted_normal (lo hi v : float) (m1 m2 : positive) (e1 e2 : Z) :
  Prim2SF lo = S754_finite false m1 e1 ->
  Prim2SF hi = S754_finite false m2 e2 ->
  -1074 < e1 ->
  (lo <=? v)%float = true -> (v <=? hi)%float = true ->
  exists m e, Prim2SF v = S754_finite false m e /\
              e1 <= e <= e2 /\ 2 ^ 52 <= Zpos m < 2 ^ 53.
Proof.
  intros Hlo Hhi He1. rewrite !leb_spec, Hlo, Hhi. intros H1 H2.
  destruct (between_finite _ _ _ _ _ H1 H2) as (m & e & Hv & He).
  exists m, e. split; [exact Hv|]. split; [exact He|].
  apply (normal_mantissa m e); [|lia].
  rewrite <- Hv. apply Prim2SF_valid.
Qed.

(** C2 - For every velocity and distance the form hands over (they are
    positive, whatever was entered), the interval is the binary64 quotient
    distance / velocity: it is positive, and it is the exact quotient up to
    the relative rounding error [2 ^ -53] of one binary64 operation.  For
    velocity 10 and distance 30 it is 3.0.  An entry within the range of
    its widget is the value handed over. *)
Theorem computed_interval_quotient (e : Entries) :
  let v := velocity (handed_over e) in
  let d := distance (handed_over e) in
  let i := form_interval e in
  (0 <? v)%float = true /\
  (0 <? d)%float = true /\
  i = (d / v)%float /\
  (0 <? i)%float = true /\
  ((1 - EPS) * (value d / value v) <= value i /\
   value i <= (1 + EPS) * (value d / value v))%Q /\
  (v = 10%float -> d = 30%float -> i = 3%float) /\
  ((0.1 <=? velocity e)%float = true -> (velocity e <=? 100)%float = true ->
   v = velocity e) /\
  ((0.1 <=? distance e)%float = true -> (distance e <=? 1000)%float = true ->
   d = distance e).
Proof.
  intros v d i.
  destruct (handed_over_in_ranges e) as ((Hv1 & Hv2 & Hd1 & Hd2 & _) & _).
  fold v in Hv1, Hv2. fold d in Hd1, Hd2.
  destruct (accepted_normal 0.1 100 v
                            7205759403792794 7036874417766400 (-56) (-46)
                            eq_refl eq_refl eq_refl Hv1 Hv2)
    as (my & ey & Hy & Hey & Hmy).
  destruct (accepted_normal 0.1 1000 d
                            7205759403792794 8796093022208000 (-56) (-43)
                            eq_refl eq_refl eq_refl Hd1 Hd2)
    as (mx & ex & Hx & Hex & Hmx).
  assert (Hexp : -1021 <= ex - ey <= 1021) by lia.
  destruct (SFdiv_normal_value mx my ex ey Hmx Hmy Hexp)
    as (m & e0 & Hz & Hlo & Hhi).
  assert (Hi : Prim2SF i = S754_finite false m e0).
  { unfold i, form_interval, computed_interval. fold v d.
    rewrite div_spec, Hx, Hy. exact Hz. }
  split; [apply tenth_le_positive, Hv1|].
  split; [apply tenth_le_positive, Hd1|].
  split; [reflexivity|]. split; [|split; [|split; [|split]]].
  - rewrite ltb_spec, Hi. reflexivity.
  - unfold value. rewrite Hi, Hx, Hy. split; assumption.
  - unfold i, form_interval, computed_interval. fold v d. intros -> ->. reflexivity.
  - intros H1 H2. apply number_input_takes_over; assumption.
  - intros H1 H2. apply number_input_takes_over; assumption.
Qed.

(** The defaults of the form: velocity 10 and distance 30 give 3.0. *)
Lemma computed_interval_quotient_witness :
  let e := {| velocity := 10; distance := 30; arm_delay := 10;
              stepper_hz := 200; start_now := false |} in
  form_interval e = 3%float /\ (0 <? form_interval e)%float = true.
Proof.
  intros e.
  destruct (computed_interval_quotient e) as (_ & _ & _ & Hpos & _).
  split; [reflexivity | exact Hpos].
Defined.

(** *** The daily view when the fetch fails *)

(** The three ways a helper raises: the transport fails, the status is an
    error, or the body is not JSON. *)
Lemma answer_raises (Json : Type) (r : result (Response Json)) (e : exn) :
  answer Json r = Raise e <->
  r = Raise e \/
  (exists resp, r = Ok resp /\ status_ok Json resp = false /\
                e = HTTPError (status_code resp)) \/
  (exists resp, r = Ok resp /\ status_ok Json resp = true /\
                json resp = None /\ e = JSONDecodeError).
Proof.
  unfold answer. destruct r as [resp|e'].
  - destruct (status_ok Json resp) eqn:Hs; [destruct (json resp) eqn:Hj|].
    + split; [discriminate|].
      intros [H|[(r' & [= <-] & H & _)|(r' & [= <-] & _ & H & _)]]; congruence.
    + split.
      * intros [= <-]. right. right. exists resp. auto.
      * intros [H|[(r' & [= <-] & H & _)|(r' & [= <-] & _ & _ & ->)]];
          congruence.
    + split.
      * intros [= <-]. right. left. exists resp. auto.
      * intros [H|[(r' & [= <-] & _ & ->)|(r' & [= <-] & H & _)]]; congruence.
  - split.
    + intros [= <-]. left. reflexivity.
    + intros [[= <-]|[(r' & H & _)|(r' & H & _)]]; congruence.
Qed.

(** C10 - When [fetch_json] raises, whatever the exception (the transport
    failed, the status was an error, the body was not JSON), the daily view
    takes the empty frame with the columns ts, lat, lon, alt, drop_id,
    speed_mps, sats, fix_ok, dt in place of the day's records and records
    the exception as a warning; the metrics are then all zero, the average
    speed is the dash, and the panel is the note that the day has no rows:
    nothing is raised further. *)
Theorem fetch_failure_gives_empty_day
        (Json St : Type) (device : St -> Request -> result (Response Json) * St)
        (base : string) (as_records : Json -> list Frame.RawRecord)
        (tz : Time.tzinfo) (day previewN : Z) (w w' : World St) (e : exn) :
  fetch_json Json St device base (Z.max previewN 400) w = (Raise e, w') ->
  let v := {| Daily.df_day :=
                {| Frame.columns := ["ts"; "lat"; "lon"; "alt"; "drop_id";
                                     "speed_mps"; "sats"; "fix_ok"; "dt"];
                   Frame.rows := [] |};
              Daily.df_all := None;
              Daily.warning := Some e |} in
  daily Json St device base as_records tz day previewN w = (Ok v, w') /\
  Daily.metrics v = {| Daily.rows_selected_day := 0;
                       Daily.total_fetched_rows := 0;
                       Daily.valid_gps_rows := 0;
                       Daily.avg_speed := Daily.Dash |} /\
  Daily.day_panel (Daily.df_day v) = Ok Daily.NoRows.
Proof.
  intros H v. split; [|split; reflexivity].
  unfold daily, bindM, try_. rewrite H. reflexivity.
Qed.

Lemma fetch_failure_gives_empty_day_witness :
  fst (daily string unit Samples.unreachable "http://192.168.4.1"
             (fun _ => []) Time.Mexico_City_CST Samples.DAY 400
             {| dev := tt; sent := [] |}) =
    Ok {| Daily.df_day := Frame.empty_frame Daily.SCHEMA_DT;
          Daily.df_all := None;
          Daily.warning := Some ConnectionError |}.
Proof.
  destruct (fetch_failure_gives_empty_day
              string unit Samples.unreachable "http://192.168.4.1"
              (fun _ => []) Time.Mexico_City_CST Samples.DAY 400
              {| dev := tt; sent := [] |}
              {| dev := tt;
                 sent := [ {| meth := GET; url := "http://192.168.4.1/log.json";
                              last := Some 400; data := None; timeout := 10 |} ] |}
              ConnectionError eq_refl) as [H _].
  rewrite H. reflexivity.
Defined.

(** *** Remarks on the range of the form *)

(** The widgets are stricter than the bounds of the specification at the
    lower end: a velocity of 0.05 is within (0, 100] and is not taken over;
    the interval is computed with the value the widget holds. *)
Lemma slow_velocity_not_taken_over :
  let e := {| velocity := 0.05; distance := 30; arm_delay := 10;
              stepper_hz := 200; start_now := true |} in
  within_bounds e = true /\
  velocity (handed_over e) = 10%float /\
  form_interval e = 3%float.
Proof. repeat split. Qed.

(** Outside the range of the widgets a quotient of positive numbers need not
    be positive: the smallest positive binary64 number divided by 2 is 0. *)
Lemma quotient_underflows_outside_form :
  (0 <? 0x1p-1074)%float = true /\
  computed_interval 0x1p-1074 2 = 0%float.
Proof. split; reflexivity. Qed.

End ClientFacts.

(** ** More on the daily view *)

Module DailyMore.
Import Time Frame Daily DailyFacts.

Lemma length_filter_le {A : Type} (f : A -> bool) (l : list A) :
  (List.length (filter f l) <= List.length l)%nat.
Proof.
  induction l as [|a l IH]; [apply le_n|].
  cbn [filter]. destruct (f a); cbn [List.length]; lia.
Qed.

Lemma len_day_frame_le (start stop : Z) (df : DataFrame) :
  len (day_frame start stop df) <= len df.
Proof.
  unfold len. rewrite rows_day_frame.
  pose proof (length_filter_le (fun r => in_window start stop (dt r))
                               (map stamped (rows df))) as H.
  rewrite length_map in H. lia.
Qed.

(** The three counters of the metrics are ordered, whatever was fetched and
    whatever failed: valid fixes <= rows of the day <= fetched rows. *)
Theorem counters_are_ordered (tz : tzinfo) (day : Z)
        (fetched : result (list RawRecord)) :
  let m := metrics (daily_view tz day fetched) in
  0 <= valid_gps_rows m /\
  valid_gps_rows m <= rows_selected_day m /\
  rows_selected_day m <= total_fetched_rows m.
Proof.
  intros m.
  pose proof (valid_gps_rows_count _ (daily_view_consistent tz day fetched)) as Hv.
  fold m in Hv. split; [lia|]. split.
  - rewrite Hv. change (rows_selected_day m) with (len (df_day (daily_view tz day fetched))).
    unfold len. pose proof (length_filter_le is_fix (rows (df_day (daily_view tz day fetched)))).
    lia.
  - unfold m. destruct fetched as [data|e]; [|cbn; lia].
    unfold daily_view.
    destruct (select_day tz day (frame_of data)) as [d|e] eqn:H;
      cbn [metrics rows_selected_day total_fetched_rows df_day df_all];
      [|unfold len; cbn; lia].
    unfold select_day in H. destruct (negb (empty (frame_of data))).
    + destruct (filter_day_inv _ _ _ _ H) as (s & e & _ & _ & _ & _ & ->).
      apply len_day_frame_le.
    + injection H as <-. lia.
Qed.

(** The rows of the day are fetched records, in the order they were fetched
    and with their logged fields as fetched: without the [dt] column they
    are the fetched rows whose instant lies in the window. *)
Theorem day_rows_are_fetched_rows
        (tz : tzinfo) (day : Z) (data : list RawRecord) (d : DataFrame)
        (start stop : Z) :
  filter_day tz day (frame_of data) = Ok d ->
  day_start tz day = Ok start ->
  day_end tz day = Ok stop ->
  map (fun r => set_dt r None) (rows d) =
    filter (fun r => in_window start stop (instant_of (ts r))) (map row_of data).
Proof.
  intros Hd Hs He.
  destruct (filter_day_inv _ _ _ _ Hd) as (s & e & _ & _ & Hs' & He' & ->).
  rewrite Hs in Hs'. rewrite He in He'. injection Hs' as <-. injection He' as <-.
  rewrite rows_day_frame, rows_frame_of. clear Hd.
  induction data as [|a data IH]; [reflexivity|].
  cbn [map filter]. change (dt (stamped (row_of a))) with (instant_of (ts (row_of a))).
  destruct (in_window start stop (instant_of (ts (row_of a)))); cbn [map]; rewrite IH;
    reflexivity.
Qed.

(** *** The day of a record *)

Lemma floor_day (x day : Z) :
  day * 86400 <= x <= day * 86400 + 86399 <-> x / 86400 = day.
Proof.
  pose proof (Z.div_mod x 86400 ltac:(lia)) as Hdm.
  pose proof (Z.mod_pos_bound x 86400 ltac:(lia)) as Hm.
  split; intros H; [|subst day]; lia.
Qed.

(** On a day throughout which the zone keeps one UTC offset (in
    America/Mexico_City every day but the two days of a clock change, at
    -18000 in the summers until 2022 and at -21600 otherwise), a record is
    in the frame of the day exactly when the day is the local calendar date
    of its timestamp, the whole number of days in [t + offset] seconds. *)
Theorem local_calendar_day (tz : tzinfo) (off day : Z) (df d : DataFrame) :
  utcoffset tz (Time.combine day time_min) = Ok off ->
  utcoffset tz (Time.combine day time_max) = Ok off ->
  filter_day tz day df = Ok d ->
  forall (r : Row) (t : Z), In r (rows df) -> ts r = Some t ->
    (In (stamped r) (rows d) <-> (t + off) / 86400 = day).
Proof.
  intros Hmin Hmax Hd r t Hin Ht.
  destruct (filter_day_inv _ _ _ _ Hd) as (s & e & _ & _ & Hs & He & ->).
  unfold day_start, day_end, tz_localize in Hs, He.
  rewrite Hmin in Hs. rewrite Hmax in He. cbn [bind] in Hs, He.
  injection Hs as <-. injection He as <-.
  rewrite in_day_frame_stamped by exact Hin. rewrite in_window_spec.
  rewrite <- floor_day. unfold Time.combine, NS_PER_DAY, NS_PER_S, time_min, time_max.
  split.
  - intros (t' & Ht' & H). rewrite Ht in Ht'. injection Ht' as <-. lia.
  - intros H. exists t. split; [exact Ht|lia].
Qed.

(** A record logged at 00:30 of 2021-07-01 in Mexico City, a summer day at
    -18000: it is in the frame of that day, day 18809. *)
Lemma local_calendar_day_witness :
  In (stamped (row_of (Samples.record_at 1625117400 true)))
     (rows (day_frame 1625115600000000000 1625201999999999000
                      (from_records [Samples.record_at 1625117400 true]))) <->
  (1625117400 + -18000) / 86400 = 18809.
Proof.
  exact (local_calendar_day Mexico_City_CDT (-18000) 18809
           (from_records [Samples.record_at 1625117400 true])
           (day_frame 1625115600000000000 1625201999999999000
                      (from_records [Samples.record_at 1625117400 true]))
           eq_refl eq_refl eq_refl
           (row_of (Samples.record_at 1625117400 true)) 1625117400
           (or_introl eq_refl) eq_refl).
Defined.

(** *** Records that lack a key *)

Lemma has_column_from_records (c : string) (data : list RawRecord) :
  has_column c (from_records data) =
    existsb (raw_has c) data && existsb (String.eqb c) SCHEMA.
Proof. unfold has_column, from_records; cbn [columns]. apply existsb_eqb_filter. Qed.

Lemma has_column_day_frame_eq (c : string) (start stop : Z) (df : DataFrame) :
  String.eqb c "dt" = false ->
  has_column c (day_frame start stop df) = has_column c df.
Proof.
  intros Hc. unfold has_column at 1. rewrite columns_day_frame.
  destruct (has_column "dt" df); [reflexivity|].
  rewrite existsb_app. cbn [existsb]. rewrite Hc, !orb_false_r. reflexivity.
Qed.

Lemma empty_frame_of (data : list RawRecord) :
  empty (frame_of data) = false -> frame_of data = from_records data.
Proof. destruct data; [discriminate|reflexivity]. Qed.

(** When no fetched record has the key [ts] (and the frame has a row and a
    column), the conversion of line 176 raises [KeyError]: the page warns,
    the day shows no row, and the fetched rows are still counted. *)
Theorem records_without_ts_key (tz : tzinfo) (day : Z) (data : list RawRecord) :
  (forall raw, In raw data -> raw_ts raw = Absent) ->
  empty (from_records data) = false ->
  daily_view tz day (Ok data) =
    {| df_day := empty_frame SCHEMA_DT;
       df_all := Some (from_records data);
       warning := Some (KeyError "ts") |} /\
  rows_selected_day (metrics (daily_view tz day (Ok data))) = 0 /\
  total_fetched_rows (metrics (daily_view tz day (Ok data))) =
    Z.of_nat (List.length data).
Proof.
  intros Hts Hne.
  assert (Hf : frame_of data = from_records data).
  { destruct data; [discriminate Hne|reflexivity]. }
  assert (Hcol : has_column "ts" (from_records data) = false).
  { rewrite has_column_from_records. apply andb_false_iff. left.
    apply not_true_is_false. intros [raw [Hin H]]%existsb_exists.
    change (raw_has "ts" raw) with (has_key (raw_ts raw)) in H.
    rewrite (Hts raw Hin) in H. discriminate. }
  assert (Hv : daily_view tz day (Ok data) =
               {| df_day := empty_frame SCHEMA_DT;
                  df_all := Some (from_records data);
                  warning := Some (KeyError "ts") |}).
  { unfold daily_view, select_day. rewrite Hf, Hne. cbn [negb].
    rewrite filter_day_unfold, Hcol. reflexivity. }
  split; [exact Hv|]. split; [rewrite Hv; reflexivity|].
  apply total_fetched_rows_all.
Qed.

Lemma records_without_ts_key_witness :
  daily_view Mexico_City_CST Samples.DAY (Ok [Samples.record_without_timestamp]) =
    {| df_day := empty_frame SCHEMA_DT;
       df_all := Some (from_records [Samples.record_without_timestamp]);
       warning := Some (KeyError "ts") |}.
Proof.
  refine (proj1 (records_without_ts_key Mexico_City_CST Samples.DAY
                   [Samples.record_without_timestamp] _ eq_refl)).
  intros raw [<-|[]]. reflexivity.
Defined.

(** A day frame that is not empty is the window of the fetched frame. *)
Lemma non_empty_day_frame (tz : tzinfo) (day : Z) (data : list RawRecord) :
  empty (df_day (daily_view tz day (Ok data))) = false ->
  exists start stop,
    df_day (daily_view tz day (Ok data)) = day_frame start stop (from_records data).
Proof.
  unfold daily_view.
  destruct (select_day tz day (frame_of data)) as [d|e] eqn:H; cbn [df_day];
    [|discriminate].
  unfold select_day in H. destruct (empty (frame_of data)) eqn:E; cbn [negb] in H.
  - injection H as <-. congruence.
  - intros _. destruct (filter_day_inv _ _ _ _ H) as (s & e & _ & _ & _ & _ & ->).
    exists s, e. rewrite (empty_frame_of _ E). reflexivity.
Qed.

(** The map of a day that has rows needs the keys [lat] and [lon] in the
    log: when no fetched record has the key [lat] (or, failing that, [lon])
    lines 201-202 raise [KeyError], which nothing catches; otherwise the map
    is drawn. *)
Theorem day_map_needs_coordinates (tz : tzinfo) (day : Z) (data : list RawRecord) :
  let d := df_day (daily_view tz day (Ok data)) in
  empty d = false ->
  day_panel d =
    if existsb (fun r => has_key (raw_lat r)) data then
      if existsb (fun r => has_key (raw_lon r)) data then
        Ok (DayMap {| latitude := center (map lat (rows d));
                      longitude := center (map lon (rows d));
                      zoom := 15 |})
      else Raise (KeyError "lon")
    else Raise (KeyError "lat").
Proof.
  intros d He. destruct (non_empty_day_frame _ _ _ He) as (s & e & Hd).
  fold d in Hd.
  assert (Hcol : forall c, String.eqb c "dt" = false ->
                           existsb (String.eqb c) SCHEMA = true ->
                           has_column c d = existsb (raw_has c) data).
  { intros c Hc Hs. rewrite Hd, has_column_day_frame_eq by exact Hc.
    rewrite has_column_from_records, Hs. apply andb_true_r. }
  unfold day_panel, column. rewrite He. cbn [negb].
  rewrite (Hcol "lat" eq_refl eq_refl), (Hcol "lon" eq_refl eq_refl).
  change (raw_has "lat") with (fun r => has_key (raw_lat r)).
  change (raw_has "lon") with (fun r => has_key (raw_lon r)).
  destruct (existsb (fun r => has_key (raw_lat r)) data); [|reflexivity].
  cbn [bind].
  destruct (existsb (fun r => has_key (raw_lon r)) data); reflexivity.
Qed.

Lemma day_map_needs_coordinates_witness :
  day_panel (df_day (daily_view Mexico_City_CST Samples.DAY
                       (Ok [Samples.record_without_lat_key Samples.MIDNIGHT]))) =
    Raise (KeyError "lat").
Proof.
  exact (day_map_needs_coordinates Mexico_City_CST Samples.DAY
           [Samples.record_without_lat_key Samples.MIDNIGHT] eq_refl).
Defined.

(** *** The average speed *)

(** The metric of the average speed: the dash for an empty day or a log
    without the key [speed_mps]; otherwise the mean of the speeds that are
    present, which is NaN (shown as "nan", not as the dash) when the day has
    rows and none of them has a speed. *)
Theorem average_speed_metric (v : DailyFrames) :
  match avg_speed (metrics v) with
  | Dash => empty (df_day v) = true \/ has_column "speed_mps" (df_day v) = false
  | Avg None =>
      empty (df_day v) = false /\
      present (map speed_mps (rows (df_day v))) = []
  | Avg (Some a) =>
      empty (df_day v) = false /\
      is_mean_of (present (map speed_mps (rows (df_day v)))) a
  end.
Proof.
  unfold metrics; cbn [avg_speed].
  destruct (empty (df_day v)); cbn [negb andb]; [left; reflexivity|].
  destruct (has_column "speed_mps" (df_day v)); [|right; reflexivity].
  destruct (notna_any (map speed_mps (rows (df_day v)))) eqn:E.
  - destruct (mean_present _ E) as (a & -> & Ha). auto.
  - unfold notna_any in E. unfold mean.
    destruct (present (map speed_mps (rows (df_day v)))); [auto|discriminate].
Qed.

End DailyMore.

(** ** The handlers and a run of the page *)

Module PagesFacts.
Import Http Client Pages ClientFacts.

Lemma prefix_app (a b : string) : String.prefix a (a ++ b) = true.
Proof.
  induction a as [|c a IH]; [destruct b; reflexivity|].
  cbn. destruct (Ascii.ascii_dec c c); [exact IH|contradiction].
Qed.

(** *** The preview *)

Lemma preview_frame_column (data : list Frame.RawRecord) (df : Frame.DataFrame)
      (c : string) :
  preview_frame data = Ok df ->
  String.eqb c "dt" = false ->
  existsb (String.eqb c) Frame.SCHEMA = true ->
  Frame.has_column c df = existsb (Frame.raw_has c) data.
Proof.
  unfold preview_frame. cbv zeta.
  destruct (Frame.column "ts" Frame.ts (Frame.from_records data)) as [cells|e];
    [|discriminate]. cbn [bind].
  destruct (mapM Time.to_datetime cells) as [dts|e]; [|discriminate]. cbn [bind].
  intros [= <-] Hc Hs. unfold Frame.has_column at 1, Frame.assign_dt.
  cbn [Frame.columns].
  assert (H : existsb (String.eqb c) (Frame.columns (Frame.from_records data)) =
              existsb (Frame.raw_has c) data).
  { fold (Frame.has_column c (Frame.from_records data)).
    rewrite DailyMore.has_column_from_records, Hs. apply andb_true_r. }
  destruct (Frame.has_column "dt" (Frame.from_records data)); [exact H|].
  rewrite existsb_app, H. cbn [existsb]. rewrite Hc, !orb_false_r. reflexivity.
Qed.

(** The map of the preview needs the keys [lat] and [lon] in the log, like
    the map of the day: with records and without these keys the table is
    shown and the map raises [KeyError]; with them the map is centred on the
    plain means. *)
Theorem preview_needs_coordinates
        (data : list Frame.RawRecord) (df : Frame.DataFrame) :
  data <> [] ->
  preview_frame data = Ok df ->
  let shown := [Subheader "Preview (last 200)"; Table df "ts"; Subheader "Map"] in
  preview data =
    if existsb (fun r => Frame.has_key (Frame.raw_lat r)) data then
      if existsb (fun r => Frame.has_key (Frame.raw_lon r)) data then
        ((shown ++ [Chart {| Daily.latitude := Frame.mean (map Frame.lat (Frame.rows df));
                             Daily.longitude := Frame.mean (map Frame.lon (Frame.rows df));
                             Daily.zoom := 15 |} df])%list, None)
      else (shown, Some (KeyError "lon"))
    else (shown, Some (KeyError "lat")).
Proof.
  intros Hne Hdf shown. unfold preview.
  destruct data as [|r data']; [contradiction|]. rewrite Hdf.
  unfold Daily.preview_view, Frame.column.
  rewrite (preview_frame_column _ _ "lat" Hdf eq_refl eq_refl).
  rewrite (preview_frame_column _ _ "lon" Hdf eq_refl eq_refl).
  change (Frame.raw_has "lat") with (fun r => Frame.has_key (Frame.raw_lat r)).
  change (Frame.raw_has "lon") with (fun r => Frame.has_key (Frame.raw_lon r)).
  destruct (existsb (fun r => Frame.has_key (Frame.raw_lat r)) (r :: data'));
    [|reflexivity]. cbn [bind].
  destruct (existsb (fun r => Frame.has_key (Frame.raw_lon r)) (r :: data'));
    reflexivity.
Qed.

Lemma preview_needs_coordinates_witness :
  snd (preview [Samples.record_without_lat_key Samples.MIDNIGHT]) =
    Some (KeyError "lat").
Proof.
  rewrite (preview_needs_coordinates
             [Samples.record_without_lat_key Samples.MIDNIGHT]
             (Frame.assign_dt
                (Frame.from_records [Samples.record_without_lat_key Samples.MIDNIGHT])
                [Some (Samples.MIDNIGHT * Time.NS_PER_S)])
             ltac:(discriminate) eq_refl).
  reflexivity.
Defined.

Section WithDevice.

Variable Json : Type.
Variable St : Type.
Variable device : St -> Request -> result (Response Json) * St.
Variable base : string.
Variable as_records : Json -> list Frame.RawRecord.
Variable lookup : Json -> string -> option Json.
Variable Bytes : Type.
Variable content : Response Json -> Bytes.

(** *** Start and stop *)

(** The two ways the start form ends: nothing sent, or the one request. *)
Lemma start_form_cases (e : Entries) (w : World St) :
  exists (m : start_message Json) (w' : World St),
    start_form Json St device base e w = (Ok m, w') /\
    if start_now e then
      sent St w' = (sent St w ++ [start_request base e])%list /\
      dev St w' = snd (device (dev St w) (start_request base e)) /\
      ((exists resp, m = Started Json (form_interval e) resp) \/
       (exists ex, m = StartFailed Json (form_interval e) ex))
    else w' = w /\ m = Computed Json (form_interval e).
Proof.
  rewrite start_form_run. destruct (start_now e).
  - eexists _, _. split; [reflexivity|]. cbn [sent dev].
    repeat split. destruct (answer Json _); [left|right]; eexists; reflexivity.
  - eexists _, w. split; [reflexivity|]. split; reflexivity.
Qed.

(** When the device answers [POST /start] with an error status, the form
    shows the failure with that status; the request was sent once and is not
    repeated. *)
Theorem start_rejection_is_shown
        (e : Entries) (w : World St) (resp : Response Json) (s : St) :
  start_now e = true ->
  device (dev St w) (start_request base e) = (Ok resp, s) ->
  status_ok Json resp = false ->
  start_form Json St device base e w =
    (Ok (StartFailed Json (computed_interval (distance (handed_over e))
                                             (velocity (handed_over e)))
                     (HTTPError (status_code resp))),
     {| dev := s; sent := sent St w ++ [start_request base e] |}).
Proof.
  intros Hn Hdev Hst.
  rewrite start_form_run, Hn, Hdev. cbn [fst snd answer]. rewrite Hst. reflexivity.
Qed.

(** The stop button (and every helper that reads the answer as JSON) needs a
    JSON body: when the device accepts [POST /stop] with a success status
    and a body that is not JSON, the request has reached the device and the
    button still reports a failure. *)
Theorem stop_needs_json_answer
        (w : World St) (resp : Response Json) (s : St) :
  device (dev St w) (stop_request base) = (Ok resp, s) ->
  status_ok Json resp = true ->
  json resp = None ->
  stop_button Json St device base w =
    (Ok (StopFailed Json JSONDecodeError),
     {| dev := s; sent := sent St w ++ [stop_request base] |}).
Proof.
  intros Hdev Hst Hj. rewrite stop_button_run, Hdev. cbn [fst snd answer].
  rewrite Hst, Hj. reflexivity.
Qed.

(** *** Clearing the log and downloading it *)

Lemma clear_log_run (w : World St) :
  clear_log Json St device base w =
    (Ok match fst (device (dev St w) (clear_request base)) with
        | Raise e => NotCleared e
        | Ok resp => if status_ok Json resp then Cleared
                     else NotCleared (HTTPError (status_code resp))
        end,
     {| dev := snd (device (dev St w) (clear_request base));
        sent := sent St w ++ [clear_request base] |}).
Proof.
  unfold clear_log, bindM, try_, send, raise_for_status, status_ok.
  fold (clear_request base).
  destruct (device (dev St w) (clear_request base)) as [[resp|e] s'];
    cbn [fst snd]; [|reflexivity].
  destruct ((400 <=? status_code resp) && (status_code resp <? 600));
    reflexivity.
Qed.

(** The log counts as cleared exactly when the device answers
    [DELETE /log] with a status that is not an error; the body of the answer
    plays no part. *)
Theorem clear_succeeds_on_status (w : World St) :
  fst (clear_log Json St device base w) = Ok Cleared <->
  exists (resp : Response Json) (s : St),
    device (dev St w) (clear_request base) = (Ok resp, s) /\
    status_ok Json resp = true.
Proof.
  rewrite clear_log_run. cbn [fst].
  destruct (device (dev St w) (clear_request base)) as [[resp|e] s'] eqn:H;
    cbn [fst].
  - destruct (status_ok Json resp) eqn:Hs; split.
    + intros _. exists resp, s'. auto.
    + reflexivity.
    + discriminate.
    + intros (r' & s'' & [= <- <-] & Hs'). congruence.
  - split; [discriminate|]. intros (r' & s'' & [=] & _).
Qed.

Lemma fetch_csv_bytes_run (w : World St) :
  fetch_csv_bytes Json St device base Bytes content w =
    (match fst (device (dev St w) (csv_request base)) with
     | Raise e => Raise e
     | Ok resp => if status_ok Json resp then Ok (content resp)
                  else Raise (HTTPError (status_code resp))
     end,
     {| dev := snd (device (dev St w) (csv_request base));
        sent := sent St w ++ [csv_request base] |}).
Proof.
  unfold fetch_csv_bytes, bindM, send, raise_for_status, status_ok.
  fold (csv_request base).
  destruct (device (dev St w) (csv_request base)) as [[resp|e] s'];
    cbn [fst snd]; [|reflexivity].
  destruct ((400 <=? status_code resp) && (status_code resp <? 600));
    reflexivity.
Qed.

(** A file is offered for download exactly when the device answers
    [GET /log.csv] with a status that is not an error; its bytes are the body
    of the answer as it came, and its name carries the time of the click. *)
Theorem download_passes_body_through
        (now : string) (w : World St) (name : string) (bytes : Bytes) :
  fst (download_csv Json St device base Bytes content now w) =
    Ok (CsvReady Bytes name bytes) <->
  name = "drops-" ++ now ++ ".csv" /\
  exists (resp : Response Json) (s : St),
    device (dev St w) (csv_request base) = (Ok resp, s) /\
    status_ok Json resp = true /\
    bytes = content resp.
Proof.
  unfold download_csv, bindM, try_. rewrite fetch_csv_bytes_run.
  destruct (device (dev St w) (csv_request base)) as [[resp|e] s'] eqn:H;
    cbn [fst snd].
  - destruct (status_ok Json resp) eqn:Hs; cbn [fst]; split.
    + intros [= <- <-]. split; [reflexivity|]. exists resp, s'. auto.
    + intros (-> & r' & s'' & [= <- <-] & _ & ->). reflexivity.
    + discriminate.
    + intros (_ & r' & s'' & [= <- <-] & Hs' & _). congruence.
  - cbn [fst]. split; [discriminate|]. intros (_ & r' & s'' & [=] & _).
Qed.

(** *** Connect and preview *)

(** The ways the handler of the preview ends, by the requests it sent. *)
Lemma connect_preview_cases (w : World St) :
  exists (s : status_text Json) (shown : list element) (w' : World St),
    connect_preview Json St device base as_records lookup w = (Ok (s, shown), w') /\
    match answer Json (fst (device (dev St w) (info_request base))) with
    | Raise e =>
        s = ConnectionFailed Json e /\ shown = [] /\
        sent St w' = (sent St w ++ [info_request base])%list
    | Ok info =>
        match lookup info "records", lookup info "bytes", lookup info "fw" with
        | Some records, Some bytes, Some fw =>
            sent St w' =
              (sent St w ++ [info_request base; log_request base 200])%list /\
            (s = Connected Json records bytes fw (lookup info "state") \/
             exists e, s = ConnectionFailed Json e)
        | None, _, _ =>
            s = ConnectionFailed Json (KeyError "records") /\ shown = [] /\
            sent St w' = (sent St w ++ [info_request base])%list
        | Some _, None, _ =>
            s = ConnectionFailed Json (KeyError "bytes") /\ shown = [] /\
            sent St w' = (sent St w ++ [info_request base])%list
        | Some _, Some _, None =>
            s = ConnectionFailed Json (KeyError "fw") /\ shown = [] /\
            sent St w' = (sent St w ++ [info_request base])%list
        end
    end.
Proof.
  unfold connect_preview, bindM, try_, fetch_info, fetch_json, lift.
  rewrite request_run. cbv zeta. fold (info_request base).
  destruct (answer Json (fst (device (dev St w) (info_request base))))
    as [info|e] eqn:Hinfo.
  2: { eexists _, _, _. split; [reflexivity|]. cbn [sent]. auto. }
  unfold connected, subscript.
  destruct (lookup info "records") as [records|]; cbn [bind].
  2: { eexists _, _, _. split; [reflexivity|]. cbn [sent]. auto. }
  destruct (lookup info "bytes") as [bytes|]; cbn [bind].
  2: { eexists _, _, _. split; [reflexivity|]. cbn [sent]. auto. }
  destruct (lookup info "fw") as [fw|]; cbn [bind].
  2: { eexists _, _, _. split; [reflexivity|]. cbn [sent]. auto. }
  rewrite request_run. cbv zeta. cbn [dev sent]. fold (log_request base 200).
  match goal with
  | |- context [answer Json ?r] => destruct (answer Json r) as [j|e]
  end.
  2: { eexists _, _, _. split; [reflexivity|]. cbn [sent]. rewrite <- app_assoc.
       split; [reflexivity|]. right. eexists. reflexivity. }
  destruct (preview (as_records j)) as [shown [e|]];
    eexists _, _, _; (split; [reflexivity|]); cbn [sent]; rewrite <- app_assoc;
    (split; [reflexivity|]); [right; eexists; reflexivity | left; reflexivity].
Qed.

(** A failure of the preview reads as a failure of the connection: when
    both requests were answered and the preview then raised (a log without
    the key [lat], say), the status line replaces "Connected" by "Connection
    failed" with that exception, and what the preview had shown stays. *)
Theorem preview_failure_reads_as_connection_failure
        (w : World St) (r1 r2 : result (Response Json)) (s1 s2 : St)
        (info j : Json) (msg : status_text Json)
        (shown : list element) (e : exn) :
  device (dev St w) (info_request base) = (r1, s1) ->
  answer Json r1 = Ok info ->
  connected Json lookup info = Ok msg ->
  device s1 (log_request base 200) = (r2, s2) ->
  answer Json r2 = Ok j ->
  preview (as_records j) = (shown, Some e) ->
  connect_preview Json St device base as_records lookup w =
    (Ok (ConnectionFailed Json e, shown),
     {| dev := s2;
        sent := (sent St w ++ [info_request base]) ++ [log_request base 200] |}).
Proof.
  intros H1 Ha1 Hmsg H2 Ha2 Hp.
  unfold connect_preview, bindM, try_, fetch_info, fetch_json, lift.
  rewrite request_run. cbv zeta. fold (info_request base).
  rewrite H1. cbn [fst snd]. rewrite Ha1, Hmsg.
  rewrite request_run. cbv zeta. cbn [dev sent]. fold (log_request base 200).
  rewrite H2. cbn [fst snd]. rewrite Ha2, Hp. reflexivity.
Qed.

(** *** A run of the page *)

Lemma addressed_path (m : method) (path : string) (n : option Z)
      (b : option StartBody) (t : Z) :
  In t [5; 8; 10; 30] ->
  addressed base {| meth := m; url := base ++ path; last := n; data := b;
                    timeout := t |}.
Proof. intros Ht. split; [apply prefix_app | exact Ht]. Qed.

Lemma appends_one {A : Type} (c : M St A) (rq : Request) (a : World St -> A)
      (s : World St -> St) :
  addressed base rq ->
  (forall w, c w = (Ok (a w), {| dev := s w; sent := sent St w ++ [rq] |})) ->
  appends St base c 1.
Proof.
  intros Hrq Hc w. exists (a w), {| dev := s w; sent := sent St w ++ [rq] |}, [rq].
  rewrite Hc. cbn [sent List.length]. repeat split; auto.
Qed.

Lemma appends_none {A : Type} (c : M St A) (a : World St -> A) (k : nat) :
  (forall w, c w = (Ok (a w), w)) -> appends St base c k.
Proof.
  intros Hc w. exists (a w), w, []. rewrite Hc, app_nil_r. cbn [List.length].
  repeat split; auto. lia.
Qed.

Lemma when_appends {A : Type} (pressed : bool) (c : M St A) (k : nat) :
  appends St base c k -> appends St base (when St pressed c) k.
Proof.
  intros Hc w. unfold when. destruct pressed.
  - destruct (Hc w) as (a & w' & new & E & Hs & Hl & Hf).
    exists (Some a), w', new. unfold bindM. rewrite E. auto.
  - exists None, w, []. rewrite app_nil_r. cbn [List.length]. repeat split; auto. lia.
Qed.

Lemma try_request_appends (m : method) (path : string) (n : option Z)
      (b : option StartBody) (t : Z) :
  In t [5; 8; 10; 30] ->
  appends St base (try_ St (request Json St device base m path n b t)) 1.
Proof.
  intros Ht. eapply appends_one; [apply (addressed_path m path n b t Ht)|].
  intros w. unfold try_. rewrite request_run. cbv zeta. reflexivity.
Qed.

Lemma stop_button_appends : appends St base (stop_button Json St device base) 1.
Proof.
  eapply appends_one; [|intros w; apply stop_button_run].
  apply addressed_path. cbn. auto.
Qed.

Lemma refresh_state_appends :
  appends St base (refresh_state Json St device base) 1.
Proof.
  intros w. unfold refresh_state, bindM.
  destruct (try_request_appends GET "/state" None None 5 ltac:(cbn; auto) w)
    as (r & w' & new & E & H).
  unfold fetch_state. rewrite E. destruct r; eexists _, w', new; split; auto; reflexivity.
Qed.

Lemma clear_log_appends : appends St base (clear_log Json St device base) 1.
Proof.
  eapply appends_one; [|intros w; apply clear_log_run].
  apply addressed_path. cbn. auto.
Qed.

Lemma download_csv_appends (now : string) :
  appends St base (download_csv Json St device base Bytes content now) 1.
Proof.
  assert (Hrq : addressed base (csv_request base))
    by (apply addressed_path; cbn; auto).
  intros w. unfold download_csv, bindM, try_. rewrite fetch_csv_bytes_run.
  match goal with
  | |- context [match ?r with Ok _ => _ | Raise _ => _ end] => destruct r
  end; eexists _, _, [csv_request base]; (split; [reflexivity|]);
    cbn [sent List.length]; (split; [reflexivity|]); (split; [lia|]);
    (apply Forall_cons; [exact Hrq|apply Forall_nil]).
Qed.

Lemma start_form_appends (e : Entries) :
  appends St base (start_form Json St device base e) 1.
Proof.
  assert (Hrq : addressed base (start_request base e))
    by (apply addressed_path; cbn; auto).
  intros w. destruct (start_form_cases e w) as (m & w' & E & H).
  destruct (start_now e).
  - exists m, w', [start_request base e]. cbn [List.length].
    split; [exact E|]. split; [tauto|]. split; [lia|].
    apply Forall_cons; [exact Hrq|apply Forall_nil].
  - exists m, w', []. destruct H as [-> _]. rewrite app_nil_r. cbn [List.length].
    split; [exact E|]. split; [reflexivity|]. split; [lia|constructor].
Qed.

Lemma connect_preview_appends :
  appends St base (connect_preview Json St device base as_records lookup) 2.
Proof.
  assert (H1 : addressed base (info_request base))
    by (apply addressed_path; cbn; auto).
  assert (H2 : addressed base (log_request base 200))
    by (apply addressed_path; cbn; auto).
  assert (One : forall (w w' : World St) a,
            connect_preview Json St device base as_records lookup w = (Ok a, w') ->
            sent St w' = (sent St w ++ [info_request base])%list ->
            exists a w' new,
              connect_preview Json St device base as_records lookup w = (Ok a, w') /\
              sent St w' = (sent St w ++ new)%list /\
              (List.length new <= 2)%nat /\ Forall (addressed base) new).
  { intros w w' a E H. exists a, w', [info_request base]. cbn [List.length].
    split; [exact E|]. split; [exact H|]. split; [lia|].
    apply Forall_cons; [exact H1|apply Forall_nil]. }
  intros w. destruct (connect_preview_cases w) as (s & shown & w' & E & H).
  destruct (answer Json (fst (device (dev St w) (info_request base)))) as [info|e];
    [|apply (One w w' _ E); tauto].
  destruct (lookup info "records"); [|apply (One w w' _ E); tauto].
  destruct (lookup info "bytes"); [|apply (One w w' _ E); tauto].
  destruct (lookup info "fw"); [|apply (One w w' _ E); tauto].
  exists (s, shown), w', [info_request base; log_request base 200].
  cbn [List.length]. split; [exact E|]. split; [tauto|]. split; [lia|].
  apply Forall_cons; [exact H1|apply Forall_cons; [exact H2|apply Forall_nil]].
Qed.

Lemma daily_run (tz : Time.tzinfo) (day previewN : Z) (w : World St) :
  exists v : Daily.DailyFrames,
    daily Json St device base as_records tz day previewN w =
      (Ok v, {| dev := snd (device (dev St w) (log_request base (Z.max previewN 400)));
                sent := sent St w ++ [log_request base (Z.max previewN 400)] |}).
Proof.
  unfold daily, bindM, try_, fetch_json. rewrite request_run. cbv zeta.
  fold (log_request base (Z.max previewN 400)). eexists. reflexivity.
Qed.

(** A run, handler by handler. *)
Lemma run_trace (tz : Time.tzinfo) (now : string) (i : Inputs) (w : World St) :
  exists (page : Page Json Bytes) (w' : World St) (new : list Request),
    run Json St device base as_records lookup Bytes content tz now i w =
      (Ok page, w') /\
    sent St w' =
      (sent St w ++ new ++ [log_request base (Z.max (previewN i) 400)])%list /\
    (List.length new <= 7)%nat /\
    Forall (addressed base) new /\
    (forall e, Daily.warning (frames Json Bytes page) = Some e ->
               status Json Bytes page = Some (FetchWarning Json e)).
Proof.
  unfold run, bindM.
  destruct (when_appends (connect_pressed i) _ 2 connect_preview_appends w)
    as (c & w1 & n1 & E1 & S1 & L1 & F1). rewrite E1.
  destruct (when_appends (download_pressed i) _ 1 (download_csv_appends now) w1)
    as (dl & w2 & n2 & E2 & S2 & L2 & F2). rewrite E2.
  destruct (when_appends (clear_pressed i) _ 1 clear_log_appends w2)
    as (cl & w3 & n3 & E3 & S3 & L3 & F3). rewrite E3.
  destruct (start_form_appends (entries i) w3)
    as (started & w4 & n4 & E4 & S4 & L4 & F4). rewrite E4.
  destruct (when_appends (stop_pressed i) _ 1 stop_button_appends w4)
    as (stopped & w5 & n5 & E5 & S5 & L5 & F5). rewrite E5.
  destruct (when_appends (refresh_pressed i) _ 1 refresh_state_appends w5)
    as (st & w6 & n6 & E6 & S6 & L6 & F6). rewrite E6.
  destruct (daily_run tz (day i) (previewN i) w6) as (v & E7). rewrite E7.
  eexists _, _, (n1 ++ n2 ++ n3 ++ n4 ++ n5 ++ n6)%list.
  split; [reflexivity|]. cbn [sent]. split; [|split; [|split]].
  - rewrite S6, S5, S4, S3, S2, S1. rewrite <- !app_assoc. reflexivity.
  - rewrite !length_app. lia.
  - repeat (apply Forall_app; split); assumption.
  - cbn [frames status]. intros e ->. reflexivity.
Qed.

(** Every run of the script, whatever buttons were pressed and whatever
    failed in their handlers, goes on to the daily view: the run does not
    raise out of a handler, its last request asks for the last
    [max(previewN, 400)] records, and at most seven requests precede it. *)
Theorem run_ends_with_daily_fetch
        (tz : Time.tzinfo) (now : string) (i : Inputs) (w : World St) :
  exists (page : Page Json Bytes) (w' : World St) (new : list Request),
    run Json St device base as_records lookup Bytes content tz now i w =
      (Ok page, w') /\
    sent St w' =
      (sent St w ++ new ++ [log_request base (Z.max (previewN i) 400)])%list /\
    (List.length new <= 7)%nat /\
    400 <= Z.max (previewN i) 400.
Proof.
  destruct (run_trace tz now i w) as (page & w' & new & E & S & L & _).
  exists page, w', new. repeat split; auto. lia.
Qed.

(** Every request a run sends goes to the address typed in the page and
    carries a timeout: 5, 8, 10 or 30 seconds. *)
Theorem run_requests_addressed
        (tz : Time.tzinfo) (now : string) (i : Inputs) (w : World St)
        (rq : Request) :
  In rq (sent St (snd (run Json St device base as_records lookup Bytes content
                           tz now i w))) ->
  In rq (sent St w) \/
  (String.prefix base (url rq) = true /\ In (timeout rq) [5; 8; 10; 30]).
Proof.
  destruct (run_trace tz now i w) as (page & w' & new & E & S & _ & F & _).
  rewrite E. cbn [snd]. rewrite S. rewrite !in_app_iff.
  intros [H|[H|[<-|[]]]].
  - left. exact H.
  - right. exact (proj1 (Forall_forall _ _) F rq H).
  - right. split; [apply prefix_app | cbn; auto].
Qed.

(** When the daily view fails (in the fetch, or when the records are made
    into the frame of the day), the status line ends up showing that
    warning: it replaces whatever a button of the same run wrote there. *)
Theorem daily_warning_replaces_status
        (tz : Time.tzinfo) (now : string) (i : Inputs) (w w' : World St)
        (page : Page Json Bytes) (e : exn) :
  run Json St device base as_records lookup Bytes content tz now i w = (Ok page, w') ->
  Daily.warning (frames Json Bytes page) = Some e ->
  status Json Bytes page = Some (FetchWarning Json e).
Proof.
  intros Hrun. destruct (run_trace tz now i w) as (page' & w'' & new & E & _ & _ & _ & H).
  rewrite E in Hrun. injection Hrun as <- <-. apply H.
Qed.

(** The start form never raises and sends a request exactly when it is
    submitted: then it is the one [POST /start], with timeout 10, whose
    interval is the quotient of the distance and the velocity the widgets
    hand over, and the message is the start or its failure.  A form that is
    not submitted shows the interval and contacts nobody. *)
Theorem start_form_sends_once (e : Entries) (w : World St) :
  exists (m : start_message Json) (w' : World St),
    start_form Json St device base e w = (Ok m, w') /\
    if start_now e then
      sent St w' = (sent St w ++ [start_request base e])%list /\
      dev St w' = snd (device (dev St w) (start_request base e)) /\
      ((exists resp, m = Started Json (form_interval e) resp) \/
       (exists ex, m = StartFailed Json (form_interval e) ex))
    else w' = w /\ m = Computed Json (form_interval e).
Proof. exact (start_form_cases e w). Qed.

(** The button "Connect & Preview" never raises.  It asks for [/info]
    first.  When that fails, or when its JSON lacks one of the members
    [records], [bytes] and [fw] (read in this order), the handler ends after
    that one request: the status is the failure, nothing is shown and the
    log is not asked for.  Only when [/info] answered with the three members
    does it ask for the last 200 records, and only then can the status read
    "Connected". *)
Theorem connect_preview_contacts (w : World St) :
  exists (s : status_text Json) (shown : list element) (w' : World St),
    connect_preview Json St device base as_records lookup w = (Ok (s, shown), w') /\
    match answer Json (fst (device (dev St w) (info_request base))) with
    | Raise e =>
        s = ConnectionFailed Json e /\ shown = [] /\
        sent St w' = (sent St w ++ [info_request base])%list
    | Ok info =>
        match lookup info "records", lookup info "bytes", lookup info "fw" with
        | Some records, Some bytes, Some fw =>
            sent St w' =
              (sent St w ++ [info_request base; log_request base 200])%list /\
            (s = Connected Json records bytes fw (lookup info "state") \/
             exists e, s = ConnectionFailed Json e)
        | None, _, _ =>
            s = ConnectionFailed Json (KeyError "records") /\ shown = [] /\
            sent St w' = (sent St w ++ [info_request base])%list
        | Some _, None, _ =>
            s = ConnectionFailed Json (KeyError "bytes") /\ shown = [] /\
            sent St w' = (sent St w ++ [info_request base])%list
        | Some _, Some _, None =>
            s = ConnectionFailed Json (KeyError "fw") /\ shown = [] /\
            sent St w' = (sent St w ++ [info_request base])%list
        end
    end.
Proof. exact (connect_preview_cases w). Qed.

End WithDevice.

(** *** The theorems above on sample devices *)

Lemma start_rejection_is_shown_witness :
  start_form string unit Samples.failing "http://192.168.4.1"
             {| velocity := 10; distance := 30; arm_delay := 10;
                stepper_hz := 200; start_now := true |}
             {| dev := tt; sent := [] |} =
    (Ok (StartFailed string 3 (HTTPError 500)),
     {| dev := tt;
        sent := [start_request "http://192.168.4.1"
                   {| velocity := 10; distance := 30; arm_delay := 10;
                      stepper_hz := 200; start_now := true |}] |}).
Proof.
  exact (start_rejection_is_shown
           string unit Samples.failing "http://192.168.4.1"
           {| velocity := 10; distance := 30; arm_delay := 10;
              stepper_hz := 200; start_now := true |}
           {| dev := tt; sent := [] |}
           {| status_code := 500; json := Some "error" |} tt
           eq_refl eq_refl eq_refl).
Defined.

Lemma stop_needs_json_answer_witness :
  stop_button string unit Samples.acknowledging_plainly "http://192.168.4.1"
              {| dev := tt; sent := [] |} =
    (Ok (StopFailed string JSONDecodeError),
     {| dev := tt; sent := [stop_request "http://192.168.4.1"] |}).
Proof.
  exact (stop_needs_json_answer
           string unit Samples.acknowledging_plainly "http://192.168.4.1"
           {| dev := tt; sent := [] |}
           {| status_code := 200; json := None |} tt
           eq_refl eq_refl eq_refl).
Defined.

(** A run with every button pressed against a device out of reach. *)
Lemma run_requests_addressed_witness :
  String.prefix "http://192.168.4.1" "http://192.168.4.1/stop" = true /\
  In 5 [5; 8; 10; 30].
Proof.
  destruct (run_requests_addressed
              string unit Samples.unreachable "http://192.168.4.1"
              (fun _ => []) (fun _ _ => None) string (fun _ => "")
              Time.Mexico_City_CST "20241004-120000" all_pressed
              {| dev := tt; sent := [] |}
              (stop_request "http://192.168.4.1")) as [H|H].
  - cbn. tauto.
  - destruct H.
  - exact H.
Defined.

Lemma daily_warning_replaces_status_witness :
  exists (page : Page string string) (w' : World unit),
    run string unit Samples.unreachable "http://192.168.4.1"
        (fun _ => []) (fun _ _ => None) string (fun _ => "")
        Time.Mexico_City_CST "20241004-120000" all_pressed
        {| dev := tt; sent := [] |} = (Ok page, w') /\
    status string string page = Some (FetchWarning string ConnectionError).
Proof.
  eexists _, _. split; [reflexivity|].
  apply (daily_warning_replaces_status
           string unit Samples.unreachable "http://192.168.4.1"
           (fun _ => []) (fun _ _ => None) string (fun _ => "")
           Time.Mexico_City_CST "20241004-120000" all_pressed
           {| dev := tt; sent := [] |} _ _ ConnectionError eq_refl).
  reflexivity.
Defined.

Lemma day_rows_are_fetched_rows_witness :
  map (fun r => Frame.set_dt r None)
      (Frame.rows (Daily.day_frame 1728021600000000000 1728107999999999000
                                   Samples.log)) =
    [Frame.row_of Samples.at_midnight].
Proof.
  exact (DailyMore.day_rows_are_fetched_rows
           Time.Mexico_City_CST Samples.DAY
           [Samples.before_midnight; Samples.at_midnight]
           (Daily.day_frame 1728021600000000000 1728107999999999000 Samples.log)
           1728021600000000000 1728107999999999000 eq_refl eq_refl eq_refl).
Defined.

Lemma preview_failure_reads_as_connection_failure_witness :
  fst (connect_preview string unit Samples.acknowledging "http://192.168.4.1"
         (fun _ => [Samples.record_without_lat_key Samples.MIDNIGHT])
         (fun _ _ => Some "1") {| dev := tt; sent := [] |}) =
    Ok (ConnectionFailed string (KeyError "lat"),
        [Subheader "Preview (last 200)";
         Table (Frame.assign_dt
                  (Frame.from_records [Samples.record_without_lat_key Samples.MIDNIGHT])
                  [Some (Samples.MIDNIGHT * Time.NS_PER_S)]) "ts";
         Subheader "Map"]).
Proof.
  rewrite (preview_failure_reads_as_connection_failure
             string unit Samples.acknowledging "http://192.168.4.1"
             (fun _ => [Samples.record_without_lat_key Samples.MIDNIGHT])
             (fun _ _ => Some "1") {| dev := tt; sent := [] |}
             _ _ tt tt "ok" "ok" (Connected string "1" "1" "1" (Some "1"))
             _ (KeyError "lat")
             eq_refl eq_refl eq_refl eq_refl eq_refl eq_refl).
  reflexivity.
Defined.

End PagesFacts.
